(** * abr_control: the adaptive dynamics signal (dynamics_adaptation.py)

    A shallow embedding of [DynamicsAdaptation] and [AreaIntercepts] from
    [abr_control/controllers/signals/dynamics_adaptation.py].

    Numeric conventions: a numpy float array is a [list R]; float64
    arithmetic is read as exact real arithmetic, so every statement below is
    about the rounding-free reading of the code.  Python exceptions are the
    left summand of [result]. *)

From Stdlib Require Import Reals Lra Lia List String Bool Arith ZArith.
Import ListNotations.
Open Scope string_scope.
Open Scope list_scope.
Open Scope R_scope.

(** ** numpy fragments used by the module *)

Module Numpy.

Definition vec := list R.

(** [np.linalg.norm(x)] of a 1-d array: the 2-norm. *)
Definition sumsq (x : vec) : R := fold_right (fun v acc => v * v + acc) 0 x.
Definition norm (x : vec) : R := sqrt (sumsq x).

(** [x /= c]: elementwise true division, stored back into [x]. *)
Definition idiv (x : vec) (c : R) : vec := map (fun v => v / c) x.

(** [c * x] for a scalar [c]. *)
Definition scale (c : R) (x : vec) : vec := map (fun v => c * v) x.

(** [np.floor] and the floored remainder [x % m] of Python and numpy. *)
Definition floor (x : R) : R := IZR (Int_part x).
Definition pymod (x m : R) : R := x - m * floor (x / m).

(** A 2-d array: its shape and its rows.  The shape is kept apart from
    the rows so that arrays with an empty axis keep their other extent. *)
Record matrix := Matrix { nrows : nat; ncols : nat; rows : list (list R) }.

(** [np.zeros((r, c))]. *)
Definition zeros (r c : nat) : matrix :=
  Matrix r c (repeat (repeat 0 c) r).

(** [m.T]. *)
Definition T (m : matrix) : matrix :=
  Matrix (ncols m) (nrows m)
         (map (fun j => map (fun row => nth j row 0) (rows m))
              (seq 0 (ncols m))).

(** [np.allclose(m, 0)] read exactly: every stored entry is zero. *)
Definition all_zero (m : matrix) : Prop :=
  Forall (Forall (fun v => v = 0)) (rows m).

(** [s[i] = v] on a 1-d array (an index past the end raises in numpy; the
    loops below never produce one). *)
Fixpoint setitem (s : vec) (i : nat) (v : R) : vec :=
  match s, i with
  | [], _ => []
  | _ :: t, O => v :: t
  | h :: t, S j => h :: setitem t j v
  end.

End Numpy.
Import Numpy.

(** ** Exceptions *)

Inductive exn :=
| AttributeError (msg : string)
| ImportError (module_name : string)
| IndexError
| KeyError (key : string)
| TypeError (msg : string)
| Exception (msg : string)
| ValidationError (attr : string).

Definition result (A : Type) : Type := (exn + A)%type.
Definition ok {A} (a : A) : result A := inr a.
Definition raise {A} (e : exn) : result A := inl e.
Definition bind {A B} (m : result A) (k : A -> result B) : result B :=
  match m with inl e => inl e | inr a => k a end.

Notation "x <- m ;; k" := (bind m (fun x => k))
  (at level 61, m at next level, right associativity).
Notation "' pat <- m ;; k" := (bind m (fun x => match x with pat => k end))
  (at level 61, pat pattern, m at next level, right associativity).

(** [l[i]] on a Python list. *)
Definition getitem {A} (l : list A) (i : nat) : result A :=
  match nth_error l i with Some a => ok a | None => raise IndexError end.

(** [l[-1]] on a Python list. *)
Definition getlast {A} (l : list A) : result A :=
  match rev l with a :: _ => ok a | [] => raise IndexError end.

(** [for ii in range(n)] threading the loop-carried names through [body];
    the first exception leaves the loop. *)
Fixpoint for_each {S} (body : nat -> S -> result S) (iis : list nat) (s : S)
  : result S :=
  match iis with
  | [] => ok s
  | ii :: rest => s' <- body ii s ;; for_each body rest s'
  end.
Definition for_range {S} (n : nat) (body : nat -> S -> result S) (s : S)
  : result S := for_each body (seq 0 n) s.

(** ** gate_error (lines 174-180) *)

Definition gate_error (filter_error : bool) (x : vec) : vec :=
  if filter_error then
    if Rlt_dec 2.0 (norm x) then idiv x (norm x * 0.5) else x
  else x.

(** ** AreaIntercepts (lines 259-287) *)

(** [nengo.dists.Uniform(low, high)]. *)
Record Uniform := { low : R; high : R }.

Record AreaIntercepts := { dimensions : nat; base : Uniform }.

Section Intercepts.

(** [scipy.special.betaincinv a b y], the inverse in [x] of the regularized
    incomplete beta function [I_x(a, b)]: a library function, left open. *)
Variable betaincinv : R -> R -> R -> R.

Definition transform (self : AreaIntercepts) (x : R) : R :=
  let sign := 1 in
  let '(x, sign) := if Rlt_dec 0 x then (- x, -1) else (x, sign) in
  sign * sqrt (1 - betaincinv ((INR (dimensions self) + 1) / 2.0) 0.5 (x + 1)).

(** [sample]: [s] is the array drawn by [self.base.sample(n, d, rng)]; the
    loop overwrites it entry by entry. *)
Definition sample (self : AreaIntercepts) (s : vec) : vec :=
  fold_left (fun s i => setitem s i (transform self (nth i s 0)))
            (seq 0 (List.length s)) s.

End Intercepts.

(** ** The feedback node qdq_input (lines 82-96) and u_input (lines 99-103) *)

Definition wrap_angle (q : R) : R := pymod (q + PI) (PI * 2) - PI.

Section Feedback.

(** [robot_config.scaledown(name, x)], owned by the robot configuration. *)
Variable scaledown : string -> vec -> vec.

Definition qdq_input (use_dq : bool) (self_q self_dq : vec) : vec :=
  let q := map wrap_angle self_q in
  if use_dq then scaledown "q" q ++ scaledown "dq" self_dq
  else scaledown "q" q.

End Feedback.

(** ** The network built by the constructor *)

Inductive neuron_type := LIF | LIFRate.

(** How an ensemble's encoders are chosen: nengo's default draws them
    independently at random; [ScatteredHypersphere] is nengolib's placement. *)
Inductive encoder_dist :=
| DefaultEncoders
| ScatteredHypersphere (surface : bool).

Record Ensemble := {
  n_neurons : nat;
  ens_dimensions : nat;
  intercepts : AreaIntercepts;
  ens_neuron_type : neuron_type;
  encoders : encoder_dist }.

(** [nengo.Ensemble(n_neurons, dimensions, intercepts, neuron_type)]: the
    encoders keep their default. *)
Definition new_Ensemble (n d : nat) (i : AreaIntercepts) (t : neuron_type)
  : Ensemble :=
  {| n_neurons := n; ens_dimensions := d; intercepts := i;
     ens_neuron_type := t; encoders := DefaultEncoders |}.

(** [nengo.Ensemble(n_neurons, dimensions, intercepts, neuron_type)] as
    nengo validates it: both counts must be at least 1; the exception
    carries the name of the refused parameter. *)
Definition nengo_Ensemble (n d : nat) (i : AreaIntercepts) (t : neuron_type)
  : result Ensemble :=
  if (n <? 1)%nat then raise (ValidationError "n_neurons")
  else if (d <? 1)%nat then raise (ValidationError "dimensions")
  else ok (new_Ensemble n d i t).

(** [nengo.PES(learning_rate)]: a negative rate is refused. *)
Definition nengo_PES (learning_rate : R) : result R :=
  if Rlt_dec learning_rate 0 then raise (ValidationError "learning_rate")
  else ok learning_rate.

(** The connection from [qdq_input] to [adapt_ens[ii][:N_DIMS]]. *)
Record InputConn := { in_post : nat; in_slice : nat; in_synapse : R }.

(** The learning connection of population [ii]: from the decoded ensemble
    with [DummySolver(fixed)], or from its neurons with [transform]. *)
Inductive LearnConn :=
| FromEnsemble (ii : nat) (pes : R) (fixed : matrix)
| FromNeurons (ii : nat) (pes : R) (transform : matrix).

(** The connection from [u_input] to [conn_learn[ii].learning_rule]. *)
Record ErrorConn := {
  err_post : nat;
  err_transform : R;
  err_function : vec -> vec;
  err_synapse : R }.

(** What a node-to-object connection carries into its synapse: the function
    applied to the node's output, then the transform. *)
Definition error_conn_signal (c : ErrorConn) (node_out : vec) : vec :=
  scale (err_transform c) (err_function c node_out).

(** ** The host: optional packages and the weight files on disk *)

(** An [.npz] archive: its named arrays.  ['weights'] is indexed
    [[-1][0]], so an entry is a sequence of snapshots, each a stack of 2-d
    arrays. *)
Definition npz := list (string * list (list matrix)).

Record host := {
  has_nengolib : bool;
  has_nengo_ocl : bool;
  has_pyopencl : bool;
  has_nengo_spinnaker : bool;
  files : string -> option npz }.

(** [os.path.isfile(p)]; the empty path names no file. *)
Definition isfile (h : host) (p : string) : bool :=
  if String.eqb p "" then false
  else match files h p with Some _ => true | None => false end.

(** [np.load(p)[key]]. *)
Definition np_load_key (h : host) (p key : string)
  : result (list (list matrix)) :=
  match files h p with
  | None => raise (Exception "No such file")
  | Some z =>
      match find (fun kv => String.eqb (fst kv) key) z with
      | Some kv => ok (snd kv)
      | None => raise (KeyError key)
      end
  end.

(** ** DynamicsAdaptation.__init__ (lines 53-214) *)

Record args := {
  N_JOINTS : nat;                       (* robot_config.N_JOINTS *)
  arg_n_neurons : nat;
  n_adapt_pop : nat;
  pes_learning_rate : R;
  arg_intercepts : list R;
  spiking : bool;
  filter_error : bool;
  weights_file : option (list string);
  backend : string;
  use_dq : bool }.

(** The value bound to the local name [intercepts]: the constructor argument
    (a sequence of floats) or, once line 116 has run, a distribution. *)
Inductive intercepts_value :=
| Bounds (l : list R)
| Dist (d : AreaIntercepts).

(** [intercepts[i]]. *)
Definition intercepts_getitem (v : intercepts_value) (i : nat) : result R :=
  match v with
  | Bounds l => getitem l i
  | Dist _ => raise (TypeError "'AreaIntercepts' object is not subscriptable")
  end.

(** The names carried around the loop of lines 114-185. *)
Record build := {
  intercepts_var : intercepts_value;
  adapt_ens : list Ensemble;
  conn_in : list InputConn;
  conn_learn : list LearnConn;
  conn_err : list ErrorConn }.

(** [nengolib.stats.ScatteredHypersphere(surface=True)]; [nengolib] is
    [None] when the import of line 15 failed. *)
Definition nengolib_ScatteredHypersphere (h : host) : result encoder_dist :=
  if has_nengolib h then ok (ScatteredHypersphere true)
  else raise (AttributeError "'NoneType' object has no attribute 'stats'").

(** [l.encoders = v] where [l] is a Python list: a list has no instance
    dictionary, so the assignment raises. *)
Definition list_setattr_encoders (l : list Ensemble) (v : encoder_dist)
  : result (list Ensemble) :=
  raise (AttributeError "'list' object has no attribute 'encoders'").

(** Lines 132-139. *)
Definition place_encoders (h : host) (ens : list Ensemble)
  : result (list Ensemble) :=
  match (v <- nengolib_ScatteredHypersphere h ;; list_setattr_encoders ens v) with
  | inr ens' => ok ens'
  | inl (AttributeError _) => ok ens
  | inl e => raise e
  end.

(** Lines 148-156. *)
Definition initial_transform (h : host) (a : args) (path : string)
           (ens : Ensemble) : result matrix :=
  if isfile h path then
    w <- np_load_key h path "weights" ;;
    snapshot <- getlast w ;;
    getitem snapshot 0
  else
    ok (T (zeros (n_neurons ens) (N_JOINTS a))).

(** The learning connection lines 158-171 ask for. *)
Definition learning_connection (a : args) (ii : nat) (transform : matrix)
  : LearnConn :=
  if String.eqb (backend a) "nengo_spinnaker"
  then FromEnsemble ii (pes_learning_rate a) (T transform)
  else FromNeurons ii (pes_learning_rate a) transform.

(** Lines 158-171 as nengo runs them: [nengo.PES] is built first, and a
    connection given [transform=] refuses a 2-d array whose shape is not
    (size of [output], neurons of the ensemble).  The fixed solver of the
    nengo_spinnaker branch is stored unchecked. *)
Definition connect_learning (a : args) (ii : nat) (ens : Ensemble)
           (transform : matrix) : result LearnConn :=
  if String.eqb (backend a) "nengo_spinnaker" then
    _ <- nengo_PES (pes_learning_rate a) ;;
    ok (learning_connection a ii transform)
  else
    _ <- nengo_PES (pes_learning_rate a) ;;
    if ((nrows transform =? N_JOINTS a)%nat
        && (ncols transform =? n_neurons ens)%nat)%bool
    then ok (learning_connection a ii transform)
    else raise (ValidationError "transform").

(** Lines 181-185. *)
Definition error_connection (a : args) (ii : nat) : ErrorConn :=
  {| err_post := ii;
     err_transform := -1;            (* invert to provide error not reward *)
     err_function := gate_error (filter_error a);
     err_synapse := 0.01 |}.

(** The body of the loop, lines 115-185; [weights] is [weights_file] after
    lines 74-75. *)
Definition init_population (h : host) (a : args) (weights : list string)
           (ii : nat) (b : build) : result build :=
  let N_INPUTS := if use_dq a then 2%nat else 1%nat in
  let N_DIMS := (N_JOINTS a * N_INPUTS)%nat in
  lo <- intercepts_getitem (intercepts_var b) 0 ;;
  hi <- intercepts_getitem (intercepts_var b) 1 ;;
  let intercepts := {| dimensions := N_DIMS;
                       base := {| low := lo; high := hi |} |} in
  let neuron_type := if spiking a then LIF else LIFRate in
  ens <- nengo_Ensemble (arg_n_neurons a) N_DIMS intercepts neuron_type ;;
  let adapt_ens := adapt_ens b ++ [ens] in
  adapt_ens <- place_encoders h adapt_ens ;;
  _ <- getitem adapt_ens ii ;;
  let conn_in := conn_in b ++ [{| in_post := ii; in_slice := N_DIMS;
                                   in_synapse := 0.005 |}] in
  path <- getitem weights ii ;;
  ens <- getitem adapt_ens ii ;;
  transform <- initial_transform h a path ens ;;
  conn <- connect_learning a ii ens transform ;;
  let conn_learn := conn_learn b ++ [conn] in
  _ <- getitem conn_learn ii ;;
  let conn_err := conn_err b ++ [error_connection a ii] in
  ok {| intercepts_var := Dist intercepts;
        adapt_ens := adapt_ens;
        conn_in := conn_in;
        conn_learn := conn_learn;
        conn_err := conn_err |}.

(** The intercept distribution and the ensemble made in an iteration that
    read the bounds [lo] and [hi]. *)
Definition population_intercepts (a : args) (lo hi : R) : AreaIntercepts :=
  {| dimensions := (N_JOINTS a * (if use_dq a then 2 else 1))%nat;
     base := {| low := lo; high := hi |} |}.

Definition population_ensemble (a : args) (lo hi : R) : Ensemble :=
  new_Ensemble (arg_n_neurons a)
               (N_JOINTS a * (if use_dq a then 2 else 1))%nat
               (population_intercepts a lo hi)
               (if spiking a then LIF else LIFRate).

(** The network after one completed pass that read the bounds [lo], [hi]
    and the initial transform [tr]. *)
Definition first_build (a : args) (lo hi : R) (tr : matrix) : build :=
  {| intercepts_var := Dist (population_intercepts a lo hi);
     adapt_ens := [population_ensemble a lo hi];
     conn_in := [{| in_post := 0;
                    in_slice := (N_JOINTS a
                                 * (if use_dq a then 2 else 1))%nat;
                    in_synapse := 0.005 |}];
     conn_learn := [learning_connection a 0 tr];
     conn_err := [error_connection a 0] |}.

(** The simulator chosen by lines 187-213. *)
Inductive simulator :=
| NengoSim (model : build) (dt : R)
| OclSim (model : build) (dt : R)
| SpinnakerSim (model : build).

Record DynamicsAdaptation := {
  self_N_JOINTS : nat;
  self_use_dq : bool;
  self_N_INPUTS : nat;
  self_u_adapt : vec;
  self_q : option vec;
  self_dq : option vec;
  self_training_signal : option vec;
  self_sim : simulator;
  self_backend : string }.

(** Lines 188-214; the decoder-cache invalidation of line 187 leaves the
    module untouched and is left out. *)
Definition make_simulator (h : host) (a : args) (model : build)
  : result (simulator * option vec) :=
  if String.eqb (backend a) "nengo" then
    ok (NengoSim model 0.001, None)
  else if String.eqb (backend a) "nengo_ocl" then
    _ <- (if has_nengo_ocl h then ok tt
          else raise (Exception
                 "Nengo OCL not installed, cannot use this backend.")) ;;
    _ <- (if has_pyopencl h then ok tt else raise (ImportError "pyopencl")) ;;
    ok (OclSim model 0.001, None)
  else if String.eqb (backend a) "nengo_spinnaker" then
    _ <- (if has_nengo_spinnaker h then ok tt
          else raise (Exception
                 "Nengo SpiNNaker not installed, cannot use this backend.")) ;;
    ok (SpinnakerSim model, Some (repeat 0 (N_JOINTS a)))
  else
    raise (Exception "Invalid backend specified").

(** Lines 74-75. *)
Definition weights_of (a : args) : list string :=
  match weights_file a with
  | None => repeat "" (n_adapt_pop a)
  | Some w => w
  end.

(** The loop-carried names on entry to the loop (lines 112-113, and the
    constructor argument [intercepts]). *)
Definition empty_build (a : args) : build :=
  {| intercepts_var := Bounds (arg_intercepts a);
     adapt_ens := []; conn_in := []; conn_learn := []; conn_err := [] |}.

Definition init (h : host) (a : args) : result DynamicsAdaptation :=
  let weights := weights_of a in
  model <- for_range (n_adapt_pop a) (init_population h a weights)
             (empty_build a) ;;
  '(sim, z) <- make_simulator h a model ;;
  ok {| self_N_JOINTS := N_JOINTS a;
        self_use_dq := use_dq a;
        self_N_INPUTS := if use_dq a then 2%nat else 1%nat;
        self_u_adapt := repeat 0 (N_JOINTS a);
        self_q := z; self_dq := z; self_training_signal := z;
        self_sim := sim;
        self_backend := backend a |}.

Definition sim_model (s : simulator) : build :=
  match s with
  | NengoSim m _ | OclSim m _ | SpinnakerSim m => m
  end.

(** ** generate (lines 216-243) *)

Section Generate.

(** One millisecond of the backend engine (or its asynchronous update):
    the value its output node hands to [u_adapt_output]. *)
Variable sim_run : DynamicsAdaptation -> vec.

Definition generate (self : DynamicsAdaptation) (q dq training_signal : vec)
  : DynamicsAdaptation * vec :=
  let self1 :=
    {| self_N_JOINTS := self_N_JOINTS self;
       self_use_dq := self_use_dq self;
       self_N_INPUTS := self_N_INPUTS self;
       self_u_adapt := self_u_adapt self;
       self_q := Some q;
       self_dq := Some dq;
       self_training_signal := Some training_signal;
       self_sim := self_sim self;
       self_backend := self_backend self |} in
  let x := sim_run self1 in
  ({| self_N_JOINTS := self_N_JOINTS self1;
      self_use_dq := self_use_dq self1;
      self_N_INPUTS := self_N_INPUTS self1;
      self_u_adapt := x;
      self_q := self_q self1;
      self_dq := self_dq self1;
      self_training_signal := self_training_signal self1;
      self_sim := self_sim self1;
      self_backend := self_backend self1 |}, x).

End Generate.

(** [u_input(t)]: the stored training signal. *)
Definition u_input (self : DynamicsAdaptation) : result vec :=
  match self_training_signal self with
  | Some ts => ok ts
  | None => raise (AttributeError
      "'DynamicsAdaptation' object has no attribute 'training_signal'")
  end.

(** What each learning rule receives from [u_input] in a step, ahead of the
    connection's synapse. *)
Definition learning_rule_inputs (self : DynamicsAdaptation)
  : result (list vec) :=
  ts <- u_input self ;;
  ok (map (fun c => error_conn_signal c ts)
          (conn_err (sim_model (self_sim self)))).

(** ** Concrete configurations *)

(** The constructor's defaults for a robot with [joints] joints, with
    [neurons] neurons per population. *)
Definition default_args (joints neurons : nat) : args :=
  {| N_JOINTS := joints;
     arg_n_neurons := neurons;
     n_adapt_pop := 1;
     pes_learning_rate := 1e-6;
     arg_intercepts := [0.5; 1.0];
     spiking := false;
     filter_error := false;
     weights_file := None;
     backend := "nengo";
     use_dq := false |}.

(** The same with the error gate switched on. *)
Definition gated_args (joints neurons : nat) : args :=
  {| N_JOINTS := joints;
     arg_n_neurons := neurons;
     n_adapt_pop := 1;
     pes_learning_rate := 1e-6;
     arg_intercepts := [0.5; 1.0];
     spiking := false;
     filter_error := true;
     weights_file := None;
     backend := "nengo";
     use_dq := false |}.

(** A host with none of the optional packages and no weight file. *)
Definition bare_host : host :=
  {| has_nengolib := false;
     has_nengo_ocl := false;
     has_pyopencl := false;
     has_nengo_spinnaker := false;
     files := fun _ => None |}.

(** A host where nengolib is installed. *)
Definition nengolib_host : host :=
  {| has_nengolib := true;
     has_nengo_ocl := false;
     has_pyopencl := false;
     has_nengo_spinnaker := false;
     files := fun _ => None |}.

(** [a] with another backend name, and with another population count. *)
Definition with_backend (a : args) (name : string) : args :=
  {| N_JOINTS := N_JOINTS a;
     arg_n_neurons := arg_n_neurons a;
     n_adapt_pop := n_adapt_pop a;
     pes_learning_rate := pes_learning_rate a;
     arg_intercepts := arg_intercepts a;
     spiking := spiking a;
     filter_error := filter_error a;
     weights_file := weights_file a;
     backend := name;
     use_dq := use_dq a |}.

Definition with_n_adapt_pop (a : args) (n : nat) : args :=
  {| N_JOINTS := N_JOINTS a;
     arg_n_neurons := arg_n_neurons a;
     n_adapt_pop := n;
     pes_learning_rate := pes_learning_rate a;
     arg_intercepts := arg_intercepts a;
     spiking := spiking a;
     filter_error := filter_error a;
     weights_file := weights_file a;
     backend := backend a;
     use_dq := use_dq a |}.

(** A weight file with two checkpoints for one joint and two neurons. *)
Definition snapshot_old : matrix := Matrix 1 2 [[0; 0]].
Definition snapshot_new : matrix := Matrix 1 2 [[1; 2]].
Definition checkpoint_file : npz :=
  [("weights", [[snapshot_old]; [snapshot_new]])].
Definition checkpoint_host : host :=
  {| has_nengolib := false;
     has_nengo_ocl := false;
     has_pyopencl := false;
     has_nengo_spinnaker := false;
     files := fun p => if String.eqb p "weights.npz"
                       then Some checkpoint_file else None |}.

(** The intercept distribution of a one-dimensional population with the
    class's default base. *)
Definition intercepts_1d : AreaIntercepts :=
  {| dimensions := 1; base := {| low := -1; high := 1 |} |}.

(** ** The specification's formulas, as the specification words them *)

Module Spec.

(** [sign(x)], numpy's [np.sign]. *)
Definition sign (x : R) : R :=
  if Rlt_dec 0 x then 1 else if Rlt_dec x 0 then -1 else 0.

(** "y = sign(x) * sqrt(1 - betaincinv((d+1)/2, 0.5, |x|))". *)
Definition transform (betaincinv : R -> R -> R -> R) (d : nat) (x : R) : R :=
  sign x * sqrt (1 - betaincinv ((INR d + 1) / 2) 0.5 (Rabs x)).

(** "the interval (-pi, pi]". *)
Definition wrapped (q : R) : Prop := - PI < q <= PI.

End Spec.

(** [betaincinv] in closed form on the line [a = 1]: there
    [I_x(1, b) = 1 - (1 - x)^b], so its inverse in [x] is
    [1 - (1 - y)^(1/b)].  It is the library function at dimension 1, where
    [(d + 1) / 2 = 1]. *)
Definition betaincinv_a1 (a b y : R) : R := 1 - Rpower (1 - y) (/ b).

(** The defaults with the one-entry intercepts [0.5]. *)
Definition short_intercepts_args : args :=
  {| N_JOINTS := 2;
     arg_n_neurons := 50;
     n_adapt_pop := 1;
     pes_learning_rate := 1e-6;
     arg_intercepts := [0.5];
     spiking := false;
     filter_error := false;
     weights_file := None;
     backend := "nengo";
     use_dq := false |}.

(** [a] with another [weights_file] argument. *)
Definition with_weights_file (a : args) (w : option (list string)) : args :=
  {| N_JOINTS := N_JOINTS a;
     arg_n_neurons := arg_n_neurons a;
     n_adapt_pop := n_adapt_pop a;
     pes_learning_rate := pes_learning_rate a;
     arg_intercepts := arg_intercepts a;
     spiking := spiking a;
     filter_error := filter_error a;
     weights_file := w;
     backend := backend a;
     use_dq := use_dq a |}.

(** A host with three damaged weight files: one without the ['weights']
    entry, one where it has no snapshot, one whose snapshots are empty. *)
Definition damaged_host : host :=
  {| has_nengolib := false;
     has_nengo_ocl := false;
     has_pyopencl := false;
     has_nengo_spinnaker := false;
     files := fun p =>
       if String.eqb p "no_key.npz" then Some [("activity", [])]
       else if String.eqb p "no_snapshot.npz" then Some [("weights", [])]
       else if String.eqb p "empty_snapshot.npz"
            then Some [("weights", [[]; []])]
       else None |}.

(** The two-checkpoint file on a host with nengo_spinnaker. *)
Definition checkpoint_spinnaker_host : host :=
  {| has_nengolib := false;
     has_nengo_ocl := false;
     has_pyopencl := false;
     has_nengo_spinnaker := true;
     files := fun p => if String.eqb p "weights.npz"
                       then Some checkpoint_file else None |}.

(** A host where only nengo_spinnaker is installed. *)
Definition spinnaker_host : host :=
  {| has_nengolib := false;
     has_nengo_ocl := false;
     has_pyopencl := false;
     has_nengo_spinnaker := true;
     files := fun _ => None |}.

(** What every ensemble and every learning connection of a constructed
    module looks like. *)
Definition ensemble_as_configured (a : args) (e : Ensemble) : Prop :=
  n_neurons e = arg_n_neurons a /\
  ens_dimensions e = (N_JOINTS a * (if use_dq a then 2 else 1))%nat /\
  dimensions (intercepts e) = ens_dimensions e /\
  ens_neuron_type e = (if spiking a then LIF else LIFRate).

Definition learning_as_configured (a : args) (c : LearnConn) : Prop :=
  match c with
  | FromEnsemble _ pes _ =>
      backend a = "nengo_spinnaker" /\ pes = pes_learning_rate a
  | FromNeurons _ pes _ =>
      backend a <> "nengo_spinnaker" /\ pes = pes_learning_rate a
  end.

(** ** DummySolver (lines 246-256) *)

Record DummySolver := { fixed : matrix; solver_weights : bool }.

Definition new_DummySolver (fixed : matrix) : DummySolver :=
  {| fixed := fixed; solver_weights := false |}.

(** [__call__(A, Y, rng, E)]: the stored weights and an empty info dict. *)
Definition DummySolver_call (self : DummySolver) (A Y : matrix)
  : matrix * list (string * R) :=
  (fixed self, []).

(** The solver a learning connection was given on line 164, if any. *)
Definition conn_solver (c : LearnConn) : option DummySolver :=
  match c with
  | FromEnsemble _ _ f => Some (new_DummySolver f)
  | FromNeurons _ _ _ => None
  end.

(** A 2-d array whose rows agree with its shape. *)
Definition well_shaped (m : matrix) : Prop :=
  List.length (rows m) = nrows m /\
  Forall (fun row => List.length row = ncols m) (rows m).

(** ** The feedback node as the simulator calls it *)

(** [self.name] for an attribute that the constructor may not have set. *)
Definition getattr_vec (name : string) (o : option vec) : result vec :=
  match o with
  | Some v => ok v
  | None =>
      raise (AttributeError
               (String.append "'DynamicsAdaptation' object has no attribute '"
                              (String.append name "'")))
  end.

Section FeedbackNode.

Variable scaledown : string -> vec -> vec.

(** [qdq_input(t)] reading [self.q], and [self.dq] only when [use_dq]. *)
Definition qdq_input_node (self : DynamicsAdaptation) : result vec :=
  q <- getattr_vec "q" (self_q self) ;;
  if self_use_dq self then
    dq <- getattr_vec "dq" (self_dq self) ;;
    ok (qdq_input scaledown true q dq)
  else
    ok (qdq_input scaledown false q []).

End FeedbackNode.

(** [betaincinv 1 0.5 y] in closed form, polynomial in [y]. *)
Definition betaincinv_dim1 (a b y : R) : R := 1 - (1 - y) * (1 - y).

(** ** utils/ideal_intercepts.py *)

Module IdealIntercepts.

(** [np.ceil] as an integer. *)
Definition ceil (x : R) : Z := (- Int_part (- x))%Z.

(** [np.arange(start, stop, step)]: [ceil((stop - start) / step)] values
    [start + i * step]. *)
Definition arange (start stop step : R) : vec :=
  map (fun i => start + INR i * step)
      (seq 0 (Z.to_nat (ceil ((stop - start) / step)))).

(** [np.rint]: the nearest integer, ties to the even one. *)
Definition rint (x : R) : Z :=
  let f := Int_part x in
  if Rlt_dec (x - IZR f) 0.5 then f
  else if Rlt_dec 0.5 (x - IZR f) then (f + 1)%Z
  else if Z.even f then f else (f + 1)%Z.

(** [round(x, 1)] on a numpy float. *)
Definition round1 (x : R) : R := IZR (rint (x * 10)) / 10.

(** [np.array(np.meshgrid(a, a)).T.reshape(-1, 2)]: the rows [(a[p], a[q])],
    [p] outermost. *)
Definition meshgrid_rows (a : vec) : list (R * R) :=
  flat_map (fun x => map (fun y => (x, y)) a) a.

(** The inner loop of [generate_possible_intercepts] over [mode_range]. *)
Definition valid_modes (use_spherical : bool) (v0 v1 : R) (mode_range : vec)
  : list vec :=
  flat_map (fun mode =>
              let mode := round1 mode in
              if Rle_dec v0 mode then
                if Rle_dec mode v1 then
                  if use_spherical then [[v0; v1; mode]]
                  else if Rlt_dec v0 0 then
                         if Rlt_dec 0 v1 then [[v0; v1; mode]] else []
                       else []
                else []
              else [])
           mode_range.

Definition generate_possible_intercepts : list vec :=
  let intercept_range := arange (-0.9) 1.0 0.1 in
  let mode_range := arange (-0.9) 1.0 0.2 in
  let intercepts := meshgrid_rows intercept_range in
  let use_spherical := true in
  flat_map (fun vals =>
              let v0 := round1 (fst vals) in
              let v1 := round1 (snd vals) in
              if Rlt_dec v0 v1 then valid_modes use_spherical v0 v1 mode_range
              else [])
           intercepts.

(** A multiple of one tenth, the values both grids are made of. *)
Definition tenth (z : Z) : R := IZR z / 10.

(** [np.linspace(start, stop, num)]. *)
Definition linspace (start stop : R) (num : nat) : vec :=
  map (fun i => start + INR i * ((stop - start) / INR (num - 1)))
      (seq 0 num).

Inductive np_error := ValueError (msg : string).

(** [ideal_profile(n_neurons, n_bins)]; [np.zeros] refuses a negative
    count. *)
Definition ideal_profile (n_neurons n_bins : nat) : np_error + vec :=
  let max_activity := (0.1, 0) in
  let min_activity := (0, 0.6) in
  let n_line_points := Int_part (snd min_activity * INR n_bins) in
  let n_zero_points := (Z.of_nat n_bins - n_line_points - 1)%Z in
  let line := linspace (fst max_activity * INR n_neurons)
                       (fst min_activity * INR n_neurons)
                       (Z.to_nat n_line_points) in
  if (n_zero_points <? 0)%Z
  then inl (ValueError "negative dimensions are not allowed")
  else inr (line ++ repeat 0 (Z.to_nat n_zero_points)).

End IdealIntercepts.

(** ** Facts about the numpy fragment *)

(** Decimal literals are rationals injected into [R]; [decimals] exposes
    numerator and denominator to [field]. *)
Ltac decimals := cbv [Q2R QArith_base.Qnum QArith_base.Qden] in *.

(** [sqrt_is r] closes a linear goal about the one square root in it, when
    that root is the non-negative number [r]. *)
Ltac sqrt_is r :=
  match goal with
  | |- context [sqrt ?X] => rewrite (sqrt_lem_1 X r) by lra; lra
  end.


Lemma sumsq_nonneg (x : vec) : 0 <= sumsq x.
Proof.
  induction x as [|v x IH]; simpl; [lra|].
  pose proof (Rle_0_sqr v) as Hv. unfold Rsqr in Hv. lra.
Qed.

Lemma sumsq_idiv (x : vec) (c : R) :
  c <> 0 -> sumsq (idiv x c) = sumsq x / (c * c).
Proof.
  intros Hc. induction x as [|v x IH]; simpl.
  - unfold Rdiv. now rewrite Rmult_0_l.
  - fold (idiv x c). rewrite IH. field. exact Hc.
Qed.

Lemma sumsq_scale (c : R) (x : vec) : sumsq (scale c x) = (c * c) * sumsq x.
Proof.
  induction x as [|v x IH]; simpl; [ring|].
  fold (scale c x). rewrite IH. ring.
Qed.

Lemma norm_nonneg (x : vec) : 0 <= norm x.
Proof. apply sqrt_pos. Qed.

Lemma norm_idiv (x : vec) (c : R) : 0 < c -> norm (idiv x c) = norm x / c.
Proof.
  intros Hc. unfold norm. rewrite sumsq_idiv by lra.
  rewrite sqrt_div_alt by nra.
  rewrite sqrt_square by lra. reflexivity.
Qed.

Lemma norm_scale_opp (x : vec) : norm (scale (-1) x) = norm x.
Proof.
  unfold norm. rewrite sumsq_scale. f_equal. ring.
Qed.

Lemma norm_6_8 : norm [6; 8] = 10.
Proof.
  unfold norm. simpl. apply sqrt_lem_1; lra.
Qed.

Lemma pymod_range (x m : R) : 0 < m -> 0 <= pymod x m < m.
Proof.
  intros Hm. unfold pymod, floor.
  destruct (base_Int_part (x / m)) as [Hle Hgt].
  set (f := IZR (Int_part (x / m))) in *.
  replace (x - m * f) with (m * (x / m - f)) by (field; lra).
  split; [apply Rmult_le_pos; lra|].
  apply Rlt_le_trans with (m * 1); [|lra].
  apply Rmult_lt_compat_l; lra.
Qed.

(** The remainder undoes a whole number of periods. *)
Lemma pymod_period (x m : R) (k : Z) :
  0 < m -> 0 <= x < m -> pymod (x + IZR k * m) m = x.
Proof.
  intros Hm [H0 H1]. unfold pymod, floor.
  assert (Hq : (x + IZR k * m) / m = x / m + IZR k) by (field; lra).
  assert (Hr : 0 <= x / m < 1).
  { split; [apply Rmult_le_pos; [lra | left; now apply Rinv_0_lt_compat]|].
    apply (Rmult_lt_reg_r m); [lra|]. unfold Rdiv.
    rewrite Rmult_assoc, Rinv_l by lra. lra. }
  rewrite <- (Int_part_spec ((x + IZR k * m) / m) k) by (rewrite Hq; lra).
  ring.
Qed.

Lemma wrap_angle_range (q : R) : - PI <= wrap_angle q < PI.
Proof.
  unfold wrap_angle.
  pose proof PI_RGT_0 as Hpi.
  destruct (pymod_range (q + PI) (PI * 2)) as [H0 H1]; lra.
Qed.

Lemma wrap_angle_congruent (q : R) :
  exists k : Z, wrap_angle q = q - IZR k * (2 * PI).
Proof.
  exists (Int_part ((q + PI) / (PI * 2))).
  unfold wrap_angle, pymod, floor. ring.
Qed.

Lemma wrap_angle_PI : wrap_angle PI = - PI.
Proof.
  unfold wrap_angle. pose proof PI_RGT_0 as Hpi.
  replace (PI + PI) with (0 + IZR 1 * (PI * 2)) by ring.
  rewrite pymod_period; lra.
Qed.

Lemma wrap_angle_past_PI : wrap_angle (PI + 0.1) = - PI + 0.1.
Proof.
  unfold wrap_angle. pose proof PI2_1 as Hpi.
  replace (PI + 0.1 + PI) with (0.1 + IZR 1 * (PI * 2)) by ring.
  rewrite pymod_period; lra.
Qed.

(** ** gate_error *)

Lemma gate_error_above (x : vec) :
  2.0 < norm x -> gate_error true x = idiv x (norm x * 0.5).
Proof.
  intros H. unfold gate_error. destruct (Rlt_dec 2.0 (norm x)); [reflexivity | lra].
Qed.

Lemma gate_error_below (x : vec) : norm x <= 2.0 -> gate_error true x = x.
Proof.
  intros H. unfold gate_error. destruct (Rlt_dec 2.0 (norm x)); [lra | reflexivity].
Qed.

Lemma norm_gate_error_above (x : vec) :
  2.0 < norm x -> norm (gate_error true x) = 2.0.
Proof.
  intros H. rewrite gate_error_above by exact H.
  rewrite norm_idiv by lra. decimals. field. lra.
Qed.

Lemma error_conn_signal_eq (a : args) (ii : nat) (x : vec) :
  error_conn_signal (error_connection a ii) x
  = scale (-1) (gate_error (filter_error a) x).
Proof. reflexivity. Qed.

(** C1, as worded, fails: a training error of norm 10 leaves the gate with
    norm 2, not 1. *)
Lemma C1_gated_norm_is_not_one :
  norm [6; 8] = 10 /\
  norm (gate_error true [6; 8]) = 2.0 /\
  ~ (2.0 < norm [6; 8] -> norm (gate_error true [6; 8]) = 1.0).
Proof.
  assert (Hbig : 2.0 < norm [6; 8]) by (rewrite norm_6_8; lra).
  split; [exact norm_6_8|]. split; [now apply norm_gate_error_above|].
  intros H. specialize (H Hbig). rewrite norm_gate_error_above in H; lra.
Qed.

(** C1, amended: with gating on, an error x of norm above 2.0 leaves the
    gate as x / (norm(x) * 0.5), every component divided by half the norm,
    which has norm exactly 2.0 (the threshold); the error connection hands
    the negated gated vector, again of norm 2.0, to its synapse.  An error
    of norm at most 2.0 leaves the gate unchanged and is handed on
    negated. *)
Theorem C1_gate_error_clamps_to_threshold (a : args) (ii : nat) (x : vec) :
  filter_error a = true ->
  (2.0 < norm x ->
     gate_error true x = map (fun v => v / (norm x * 0.5)) x /\
     norm (gate_error true x) = 2.0 /\
     error_conn_signal (error_connection a ii) x
     = map (fun v => -1 * (v / (norm x * 0.5))) x /\
     norm (error_conn_signal (error_connection a ii) x) = 2.0) /\
  (norm x <= 2.0 ->
     gate_error true x = x /\
     error_conn_signal (error_connection a ii) x = map (fun v => -1 * v) x).
Proof.
  intros Hf. rewrite error_conn_signal_eq, Hf. split; intros H.
  - rewrite norm_scale_opp.
    assert (Hg : gate_error true x = map (fun v => v / (norm x * 0.5)) x)
      by now rewrite gate_error_above.
    split; [exact Hg|]. split; [now apply norm_gate_error_above|].
    split; [|now apply norm_gate_error_above].
    rewrite Hg. unfold scale. now rewrite map_map.
  - rewrite gate_error_below by exact H. split; reflexivity.
Qed.

Lemma norm_06_08 : norm [0.6; 0.8] = 1.
Proof.
  unfold norm. simpl. apply sqrt_lem_1; lra.
Qed.

(** The clamp at [6, 8], of norm 10, and the pass-through at [0.6, 0.8], of
    norm 1. *)
Lemma C1_gate_error_witness :
  (gate_error true [6; 8] = map (fun v => v / (norm [6; 8] * 0.5)) [6; 8] /\
   norm (gate_error true [6; 8]) = 2.0 /\
   error_conn_signal (error_connection (gated_args 2 50) 0) [6; 8]
   = map (fun v => -1 * (v / (norm [6; 8] * 0.5))) [6; 8] /\
   norm (error_conn_signal (error_connection (gated_args 2 50) 0) [6; 8]) = 2.0)
  /\
  (gate_error true [0.6; 0.8] = [0.6; 0.8] /\
   error_conn_signal (error_connection (gated_args 2 50) 0) [0.6; 0.8]
   = map (fun v => -1 * v) [0.6; 0.8]).
Proof.
  split.
  - apply (C1_gate_error_clamps_to_threshold (gated_args 2 50) 0 [6; 8] eq_refl).
    rewrite norm_6_8. lra.
  - apply (C1_gate_error_clamps_to_threshold (gated_args 2 50) 0 [0.6; 0.8] eq_refl).
    rewrite norm_06_08. lra.
Defined.

(** ** The feedback node *)

(** C3, as worded, fails: the angle pi is sent to -pi, outside (-pi, pi]. *)
Lemma C3_PI_leaves_half_open_interval :
  wrap_angle PI = - PI /\ ~ Spec.wrapped (wrap_angle PI).
Proof.
  split; [exact wrap_angle_PI|]. rewrite wrap_angle_PI.
  unfold Spec.wrapped. lra.
Qed.

(** C3, amended: each evaluation of the feedback node replaces every joint
    angle q by ((q + pi) mod 2 pi) - pi before scaling; the result lies in
    [-pi, pi) and differs from q by a whole number of turns; pi + 0.1 is
    sent to -pi + 0.1. *)
Theorem C3_qdq_input_wraps_angles :
  (forall q : R,
      wrap_angle q = pymod (q + PI) (PI * 2) - PI /\
      - PI <= wrap_angle q < PI /\
      exists k : Z, wrap_angle q = q - IZR k * (2 * PI)) /\
  wrap_angle (PI + 0.1) = - PI + 0.1 /\
  (forall (scaledown : string -> vec -> vec) (use_dq : bool) (q dq : vec),
      qdq_input scaledown use_dq q dq
      = scaledown "q" (map wrap_angle q)
        ++ (if use_dq then scaledown "dq" dq else [])).
Proof.
  split; [|split].
  - intros q. split; [reflexivity|]. split.
    + apply wrap_angle_range.
    + apply wrap_angle_congruent.
  - exact wrap_angle_past_PI.
  - intros scaledown [|] q dq; unfold qdq_input; [reflexivity|].
    now rewrite app_nil_r.
Qed.

(** ** AreaIntercepts *)

Section InterceptFacts.

Variable betaincinv : R -> R -> R -> R.
Variable self : AreaIntercepts.

Lemma transform_pos (x : R) :
  0 < x ->
  transform betaincinv self x
  = - sqrt (1 - betaincinv ((INR (dimensions self) + 1) / 2.0) 0.5 (- x + 1)).
Proof.
  intros Hx. unfold transform. destruct (Rlt_dec 0 x); [|lra]. ring.
Qed.

Lemma transform_nonpos (x : R) :
  x <= 0 ->
  transform betaincinv self x
  = sqrt (1 - betaincinv ((INR (dimensions self) + 1) / 2.0) 0.5 (x + 1)).
Proof.
  intros Hx. unfold transform. destruct (Rlt_dec 0 x); [lra|]. ring.
Qed.

(** Whatever [betaincinv] is, a positive sample never gets a positive
    intercept. *)
Lemma transform_pos_sign (x : R) : 0 < x -> transform betaincinv self x <= 0.
Proof.
  intros Hx. rewrite transform_pos by exact Hx.
  match goal with |- - sqrt ?X <= 0 => pose proof (sqrt_pos X) end. lra.
Qed.

(** ... while the specification's formula never gives it a negative one. *)
Lemma Spec_transform_pos_sign (x : R) :
  0 < x -> 0 <= Spec.transform betaincinv (dimensions self) x.
Proof.
  intros Hx. unfold Spec.transform, Spec.sign.
  destruct (Rlt_dec 0 x); [|lra]. rewrite Rmult_1_l. apply sqrt_pos.
Qed.

(** The two agree on a positive sample only where both vanish. *)
Lemma transform_meets_Spec_at_zero (x : R) :
  0 < x ->
  transform betaincinv self x = Spec.transform betaincinv (dimensions self) x ->
  transform betaincinv self x = 0.
Proof.
  intros Hx Heq.
  pose proof (transform_pos_sign x Hx).
  pose proof (Spec_transform_pos_sign x Hx). lra.
Qed.

Lemma setitem_middle (pre post : vec) (x v : R) :
  setitem (pre ++ x :: post) (List.length pre) v = pre ++ v :: post.
Proof.
  induction pre as [|p pre IH]; simpl; [reflexivity | now rewrite IH].
Qed.

(** The loop of [sample], started after the entries [pre] it has already
    overwritten. *)
Lemma sample_loop (post pre : vec) :
  fold_left (fun s i => setitem s i (transform betaincinv self (nth i s 0)))
            (seq (List.length pre) (List.length post)) (pre ++ post)
  = pre ++ map (transform betaincinv self) post.
Proof.
  revert pre. induction post as [|x post IH]; intros pre; simpl.
  - reflexivity.
  - rewrite nth_middle, setitem_middle.
    replace (pre ++ transform betaincinv self x :: post)
      with ((pre ++ [transform betaincinv self x]) ++ post)
      by now rewrite <- app_assoc.
    replace (S (List.length pre))
      with (List.length (pre ++ [transform betaincinv self x]))
      by (rewrite length_app; simpl; lia).
    rewrite IH. now rewrite <- app_assoc.
Qed.

Lemma sample_map (s : vec) :
  sample betaincinv self s = map (transform betaincinv self) s.
Proof. exact (sample_loop s []). Qed.

End InterceptFacts.

Lemma betaincinv_a1_half (a y : R) :
  y < 1 -> betaincinv_a1 a 0.5 y = 1 - (1 - y) * (1 - y).
Proof.
  intros Hy. unfold betaincinv_a1.
  replace (/ 0.5) with (INR 2) by (simpl; decimals; field).
  rewrite Rpower_pow by lra. simpl. ring.
Qed.

(** C2, as worded, fails: in one dimension the sample 0.5 is sent to -0.5,
    where the worded formula gives +0.5. *)
Lemma C2_transform_differs_from_worded_formula :
  transform betaincinv_a1 intercepts_1d 0.5 = - 0.5 /\
  Spec.transform betaincinv_a1 1 0.5 = 0.5 /\
  transform betaincinv_a1 intercepts_1d 0.5 <> Spec.transform betaincinv_a1 1 0.5.
Proof.
  assert (Hc : transform betaincinv_a1 intercepts_1d 0.5 = - 0.5).
  { rewrite transform_pos by lra. rewrite betaincinv_a1_half by lra.
    sqrt_is 0.5. }
  assert (Hw : Spec.transform betaincinv_a1 1 0.5 = 0.5).
  { unfold Spec.transform, Spec.sign. destruct (Rlt_dec 0 0.5); [|lra].
    rewrite Rabs_right by lra. rewrite betaincinv_a1_half by lra.
    sqrt_is 0.5. }
  split; [exact Hc|]. split; [exact Hw|]. rewrite Hc, Hw. lra.
Qed.

(** C2, amended: for every dimension d and sample x the transform returns
    s * sqrt(1 - betaincinv((d+1)/2, 0.5, 1 - |x|)) with s = -1 when x > 0
    and s = +1 otherwise, and [sample] applies it to each base sample
    independently. *)
Theorem C2_transform_and_sample
    (betaincinv : R -> R -> R -> R) (self : AreaIntercepts) :
  (forall x : R,
      transform betaincinv self x
      = (if Rlt_dec 0 x then -1 else 1)
        * sqrt (1 - betaincinv ((INR (dimensions self) + 1) / 2) 0.5
                               (1 - Rabs x))) /\
  (forall s : vec,
      sample betaincinv self s = map (transform betaincinv self) s).
Proof.
  split; [|apply sample_map].
  intros x. replace ((INR (dimensions self) + 1) / 2)
    with ((INR (dimensions self) + 1) / 2.0) by lra.
  destruct (Rlt_dec 0 x) as [Hx|Hx].
  - rewrite transform_pos by exact Hx. rewrite Rabs_right by lra.
    replace (- x + 1) with (1 - x) by ring. ring.
  - rewrite transform_nonpos by lra. rewrite Rabs_left1 by lra.
    replace (x + 1) with (1 - - x) by ring. ring.
Qed.

(** C8: the transform is odd on (0, 1). *)
Theorem C8_transform_odd
    (betaincinv : R -> R -> R -> R) (self : AreaIntercepts) (x : R) :
  0 < x < 1 ->
  transform betaincinv self (- x) = - transform betaincinv self x.
Proof.
  intros [H0 _].
  rewrite (transform_pos betaincinv self x) by exact H0.
  rewrite (transform_nonpos betaincinv self (- x)) by lra. ring.
Qed.

(** Oddness at 0.5 in one dimension. *)
Lemma C8_transform_odd_witness :
  0 < 0.5 < 1 /\
  transform betaincinv_a1 intercepts_1d (- (0.5))
  = - transform betaincinv_a1 intercepts_1d 0.5.
Proof.
  assert (H : 0 < 0.5 < 1) by lra.
  split; [exact H|].
  exact (C8_transform_odd betaincinv_a1 intercepts_1d 0.5 H).
Defined.

(** ** The error monad *)

Lemma bind_ok {A B} (m : result A) (k : A -> result B) (b : B) :
  bind m k = inr b -> exists x, m = inr x /\ k x = inr b.
Proof.
  destruct m as [e|x]; simpl; intros H; [discriminate|]. now exists x.
Qed.

(** [inv_bind H] splits a successful sequence [H : (x <- m ;; k) = inr b]
    into its successful steps. *)
Ltac inv_bind H :=
  let x := fresh "x" in
  let Hx := fresh "Hx" in
  apply bind_ok in H; destruct H as [x [Hx H]].

Lemma getlast_snoc {A} (l : list A) (x : A) : getlast (l ++ [x]) = ok x.
Proof. unfold getlast. now rewrite rev_unit. Qed.

(** ** Initial weights *)

Lemma map_nth_repeat (j c r : nat) :
  (j < c)%nat ->
  map (fun row : list R => nth j row 0) (repeat (repeat 0 c) r) = repeat 0 r.
Proof.
  intros Hj. induction r as [|r IH]; simpl; [reflexivity|].
  rewrite IH. f_equal. apply nth_repeat.
Qed.

Lemma T_zeros (r c : nat) : T (zeros r c) = zeros c r.
Proof.
  unfold T, zeros. simpl. f_equal.
  assert (H : forall k n, (k + n <= c)%nat ->
            map (fun j => map (fun row : list R => nth j row 0)
                              (repeat (repeat 0 c) r)) (seq k n)
            = repeat (repeat 0 r) n).
  { intros k n. revert k. induction n as [|n IH]; intros k Hk; simpl.
    - reflexivity.
    - rewrite map_nth_repeat by lia. f_equal. apply IH. lia. }
  apply H. lia.
Qed.

Lemma zeros_all_zero (r c : nat) : all_zero (zeros r c).
Proof.
  unfold all_zero, zeros. simpl.
  apply Forall_forall. intros row Hrow. apply repeat_spec in Hrow. subst row.
  apply Forall_forall. intros v Hv. now apply repeat_spec in Hv.
Qed.

Lemma isfile_missing (h : host) (path : string) :
  path = "" \/ files h path = None -> isfile h path = false.
Proof.
  unfold isfile. intros [->|H]; [reflexivity|].
  rewrite H. now destruct (String.eqb path "").
Qed.

(** C4: without a weight file the initial transform is the zero matrix of
    shape (joints, neurons). *)
Theorem C4_zero_transform_without_file
    (h : host) (a : args) (path : string) (ens : Ensemble) :
  path = "" \/ files h path = None ->
  exists m : matrix,
    initial_transform h a path ens = ok m /\
    m = zeros (N_JOINTS a) (n_neurons ens) /\
    nrows m = N_JOINTS a /\ ncols m = n_neurons ens /\
    all_zero m.
Proof.
  intros Hp. exists (zeros (N_JOINTS a) (n_neurons ens)).
  unfold initial_transform. rewrite (isfile_missing h path Hp), T_zeros.
  repeat split. apply zeros_all_zero.
Qed.

(** The default [weights_file] of a two-joint robot with 50 neurons. *)
Lemma C4_zero_transform_witness :
  exists m : matrix,
    initial_transform bare_host (default_args 2 50) ""
      (new_Ensemble 50 2 intercepts_1d LIFRate) = ok m /\
    m = zeros 2 50 /\ nrows m = 2%nat /\ ncols m = 50%nat /\ all_zero m.
Proof.
  apply (C4_zero_transform_without_file bare_host (default_args 2 50) ""
           (new_Ensemble 50 2 intercepts_1d LIFRate)).
  left. reflexivity.
Defined.


(** ** The population loop *)

(** Lines 132-139 never change the ensembles: with nengolib missing the
    attribute lookup on [None] raises, with nengolib present the assignment
    to the list raises, and both are swallowed. *)
Lemma place_encoders_id (h : host) (ens : list Ensemble) :
  place_encoders h ens = ok ens.
Proof.
  unfold place_encoders, nengolib_ScatteredHypersphere.
  destruct (has_nengolib h); reflexivity.
Qed.

(** What nengo's validation lets through. *)
Lemma nengo_Ensemble_inv (n d : nat) (i : AreaIntercepts) (t : neuron_type)
      (e : Ensemble) :
  nengo_Ensemble n d i t = inr e ->
  e = new_Ensemble n d i t /\ (1 <= n)%nat /\ (1 <= d)%nat.
Proof.
  unfold nengo_Ensemble.
  destruct (Nat.ltb_spec n 1) as [|Hn]; [discriminate|].
  destruct (Nat.ltb_spec d 1) as [|Hd]; [discriminate|].
  intros He. inversion He. now repeat split.
Qed.

Lemma nengo_Ensemble_ok (n d : nat) (i : AreaIntercepts) (t : neuron_type) :
  (1 <= n)%nat -> (1 <= d)%nat ->
  nengo_Ensemble n d i t = ok (new_Ensemble n d i t).
Proof.
  intros Hn Hd. unfold nengo_Ensemble.
  destruct (Nat.ltb_spec n 1) as [Hn'|_]; [lia|].
  destruct (Nat.ltb_spec d 1) as [Hd'|_]; [lia|]. reflexivity.
Qed.

Lemma nengo_PES_ok (lr : R) : 0 <= lr -> nengo_PES lr = ok lr.
Proof.
  intros H. unfold nengo_PES. destruct (Rlt_dec lr 0); [lra | reflexivity].
Qed.

Lemma connect_learning_inv (a : args) (ii : nat) (ens : Ensemble)
      (tr : matrix) (c : LearnConn) :
  connect_learning a ii ens tr = inr c ->
  c = learning_connection a ii tr /\
  0 <= pes_learning_rate a /\
  (backend a <> "nengo_spinnaker" ->
   nrows tr = N_JOINTS a /\ ncols tr = n_neurons ens).
Proof.
  unfold connect_learning, nengo_PES.
  destruct (Rlt_dec (pes_learning_rate a) 0) as [Hneg|Hpos].
  { destruct (String.eqb (backend a) "nengo_spinnaker"); discriminate. }
  assert (Hlr : 0 <= pes_learning_rate a) by lra.
  destruct (String.eqb (backend a) "nengo_spinnaker") eqn:E; simpl.
  - apply String.eqb_eq in E. intros H. inversion H.
    split; [reflexivity|]. split; [exact Hlr|]. intros Hn. now elim Hn.
  - destruct (Nat.eqb_spec (nrows tr) (N_JOINTS a)) as [Hr|];
      [|discriminate].
    destruct (Nat.eqb_spec (ncols tr) (n_neurons ens)) as [Hc|];
      [|discriminate].
    simpl. intros H. inversion H. now repeat split.
Qed.

Lemma connect_learning_ok (a : args) (ii : nat) (ens : Ensemble)
      (tr : matrix) :
  0 <= pes_learning_rate a ->
  (backend a <> "nengo_spinnaker" ->
   nrows tr = N_JOINTS a /\ ncols tr = n_neurons ens) ->
  connect_learning a ii ens tr = ok (learning_connection a ii tr).
Proof.
  intros Hlr Hshape. unfold connect_learning.
  rewrite nengo_PES_ok by exact Hlr. simpl.
  destruct (String.eqb (backend a) "nengo_spinnaker") eqn:E; [reflexivity|].
  apply String.eqb_neq in E. destruct (Hshape E) as [Hr Hc].
  rewrite Hr, Hc, !Nat.eqb_refl. reflexivity.
Qed.

(** A pass of the loop that completes, taken apart. *)
Lemma init_population_steps (h : host) (a : args) (w : list string)
      (ii : nat) (b b' : build) :
  init_population h a w ii b = inr b' ->
  exists lo hi path ens tr,
    (intercepts_getitem (intercepts_var b) 0 = ok lo /\
     intercepts_getitem (intercepts_var b) 1 = ok hi /\
     getitem w ii = ok path /\
     getitem (adapt_ens b ++ [population_ensemble a lo hi]) ii = ok ens /\
     initial_transform h a path ens = ok tr /\
     b' = {| intercepts_var := Dist (population_intercepts a lo hi);
             adapt_ens := adapt_ens b ++ [population_ensemble a lo hi];
             conn_in := conn_in b
                        ++ [{| in_post := ii;
                               in_slice := (N_JOINTS a
                                            * (if use_dq a then 2 else 1))%nat;
                               in_synapse := 0.005 |}];
             conn_learn := conn_learn b ++ [learning_connection a ii tr];
             conn_err := conn_err b ++ [error_connection a ii] |}) /\
    (1 <= arg_n_neurons a)%nat /\
    (1 <= N_JOINTS a * (if use_dq a then 2 else 1))%nat /\
    0 <= pes_learning_rate a /\
    (backend a <> "nengo_spinnaker" ->
     nrows tr = N_JOINTS a /\ ncols tr = n_neurons ens).
Proof.
  unfold init_population. intros H.
  inv_bind H. rename x into lo, Hx into Hlo.
  inv_bind H. rename x into hi, Hx into Hhi.
  inv_bind H. rename x into e0, Hx into He0.
  apply nengo_Ensemble_inv in He0. destruct He0 as (-> & Hn & Hd).
  rewrite place_encoders_id in H. simpl in H.
  inv_bind H. clear Hx x.
  inv_bind H. rename x into path, Hx into Hpath.
  inv_bind H. rename x into ens, Hx into Hens.
  inv_bind H. rename x into tr, Hx into Htr.
  inv_bind H. rename x into c, Hx into Hc.
  apply connect_learning_inv in Hc. destruct Hc as (-> & Hlr & Hshape).
  inv_bind H. clear Hx x.
  exists lo, hi, path, ens, tr.
  split; [|split; [exact Hn | split; [exact Hd | split; assumption]]].
  repeat (split; [assumption|]).
  now inversion H.
Qed.

Lemma init_population_inv (h : host) (a : args) (w : list string)
      (ii : nat) (b b' : build) :
  init_population h a w ii b = inr b' ->
  exists lo hi path ens tr,
    intercepts_getitem (intercepts_var b) 0 = ok lo /\
    intercepts_getitem (intercepts_var b) 1 = ok hi /\
    getitem w ii = ok path /\
    getitem (adapt_ens b ++ [population_ensemble a lo hi]) ii = ok ens /\
    initial_transform h a path ens = ok tr /\
    b' = {| intercepts_var := Dist (population_intercepts a lo hi);
            adapt_ens := adapt_ens b ++ [population_ensemble a lo hi];
            conn_in := conn_in b
                       ++ [{| in_post := ii;
                              in_slice := (N_JOINTS a
                                           * (if use_dq a then 2 else 1))%nat;
                              in_synapse := 0.005 |}];
            conn_learn := conn_learn b ++ [learning_connection a ii tr];
            conn_err := conn_err b ++ [error_connection a ii] |}.
Proof.
  intros H. apply init_population_steps in H.
  destruct H as (lo & hi & path & ens & tr & H & _).
  now exists lo, hi, path, ens, tr.
Qed.

(** Once line 116 has run, [intercepts] is a distribution... *)
Lemma init_population_rebinds (h : host) (a : args) (w : list string)
      (ii : nat) (b b' : build) :
  init_population h a w ii b = inr b' ->
  exists d, intercepts_var b' = Dist d.
Proof.
  intros H. apply init_population_inv in H.
  destruct H as (lo & hi & path & ens & tr & _ & _ & _ & _ & _ & ->).
  now eexists.
Qed.

(** ... and the next pass through line 118 cannot index it. *)
Lemma init_population_on_Dist (h : host) (a : args) (w : list string)
      (ii : nat) (b : build) (d : AreaIntercepts) :
  intercepts_var b = Dist d ->
  init_population h a w ii b
  = raise (TypeError "'AreaIntercepts' object is not subscriptable").
Proof.
  intros H. unfold init_population. rewrite H. reflexivity.
Qed.

Lemma for_each_two_passes (h : host) (a : args) (w : list string)
      (i j : nat) (rest : list nat) (b : build) :
  (exists e, for_each (init_population h a w) (i :: j :: rest) b = inl e) /\
  (forall b1, init_population h a w i b = inr b1 ->
     for_each (init_population h a w) (i :: j :: rest) b
     = raise (TypeError "'AreaIntercepts' object is not subscriptable")).
Proof.
  assert (Hsecond : forall b1, init_population h a w i b = inr b1 ->
     for_each (init_population h a w) (i :: j :: rest) b
     = raise (TypeError "'AreaIntercepts' object is not subscriptable")).
  { intros b1 H1. simpl. rewrite H1. simpl.
    destruct (init_population_rebinds _ _ _ _ _ _ H1) as [d Hd].
    now rewrite (init_population_on_Dist h a w j b1 d Hd). }
  split; [|exact Hsecond].
  destruct (init_population h a w i b) as [e|b1] eqn:H1.
  - exists e. simpl. now rewrite H1.
  - eexists. now apply (Hsecond b1).
Qed.

Lemma seq_two (n : nat) :
  (2 <= n)%nat -> seq 0 n = 0%nat :: 1%nat :: seq 2 (n - 2).
Proof.
  intros H. destruct n as [|[|n]]; try lia. simpl.
  now rewrite Nat.sub_0_r.
Qed.

Lemma init_model (h : host) (a : args) (self : DynamicsAdaptation) :
  init h a = inr self ->
  for_range (n_adapt_pop a) (init_population h a (weights_of a))
            (empty_build a)
  = inr (sim_model (self_sim self)).
Proof.
  unfold init. intros H.
  inv_bind H. rename x into model. rewrite Hx. f_equal.
  inv_bind H. destruct x as [sim z]. inversion H; subst self; simpl.
  unfold make_simulator in Hx0.
  destruct (String.eqb (backend a) "nengo");
    [inversion Hx0; reflexivity|].
  destruct (String.eqb (backend a) "nengo_ocl").
  { destruct (has_nengo_ocl h); [|discriminate].
    destruct (has_pyopencl h); [|discriminate].
    inversion Hx0; reflexivity. }
  destruct (String.eqb (backend a) "nengo_spinnaker"); [|discriminate].
  destruct (has_nengo_spinnaker h); [|discriminate].
  inversion Hx0; reflexivity.
Qed.

(** A module that was constructed has at most one population. *)
Lemma init_at_most_one (h : host) (a : args) (self : DynamicsAdaptation) :
  init h a = inr self -> (n_adapt_pop a <= 1)%nat.
Proof.
  intros H. apply init_model in H.
  destruct (le_lt_dec (n_adapt_pop a) 1) as [Hle|Hgt]; [exact Hle|].
  exfalso. unfold for_range in H. rewrite seq_two in H by lia.
  destruct (for_each_two_passes h a (weights_of a) 0 1
              (seq 2 (n_adapt_pop a - 2)) (empty_build a)) as [[e He] _].
  rewrite He in H. discriminate H.
Qed.

(** The error connections of a constructed module, one per population. *)
Lemma for_each_conn_err (h : host) (a : args) (w : list string)
      (iis : list nat) (b b' : build) :
  for_each (init_population h a w) iis b = inr b' ->
  conn_err b' = conn_err b ++ map (error_connection a) iis.
Proof.
  revert b. induction iis as [|ii iis IH]; intros b H; simpl in *.
  - inversion H. now rewrite app_nil_r.
  - inv_bind H. rewrite (IH _ H).
    apply init_population_inv in Hx.
    destruct Hx as (lo & hi & path & ens & tr & _ & _ & _ & _ & _ & ->).
    simpl. now rewrite <- app_assoc.
Qed.

(** No pass through the loop gives an ensemble other encoders than the
    default. *)
Lemma for_each_encoders (h : host) (a : args) (w : list string)
      (iis : list nat) (b b' : build) :
  for_each (init_population h a w) iis b = inr b' ->
  Forall (fun e => encoders e = DefaultEncoders) (adapt_ens b) ->
  Forall (fun e => encoders e = DefaultEncoders) (adapt_ens b').
Proof.
  revert b. induction iis as [|ii iis IH]; intros b H Hb; simpl in *.
  - now inversion H; subst.
  - inv_bind H. apply (IH _ H).
    apply init_population_inv in Hx.
    destruct Hx as (lo & hi & path & ens & tr & _ & _ & _ & _ & _ & ->).
    simpl. apply Forall_app. split; [exact Hb|].
    constructor; [reflexivity | constructor].
Qed.

Lemma make_simulator_inv (h : host) (a : args) (model : build)
      (sim : simulator) (z : option vec) :
  make_simulator h a model = inr (sim, z) ->
  sim_model sim = model /\
  (backend a = "nengo_spinnaker" -> z = Some (repeat 0 (N_JOINTS a))) /\
  (backend a <> "nengo_spinnaker" -> z = None).
Proof.
  unfold make_simulator. intros H.
  destruct (String.eqb (backend a) "nengo") eqn:E1.
  { apply String.eqb_eq in E1. inversion H; subst. rewrite E1.
    split; [reflexivity|]. split; [discriminate | reflexivity]. }
  destruct (String.eqb (backend a) "nengo_ocl") eqn:E2.
  { apply String.eqb_eq in E2.
    destruct (has_nengo_ocl h); [|discriminate].
    destruct (has_pyopencl h); [|discriminate].
    inversion H; subst. rewrite E2.
    split; [reflexivity|]. split; [discriminate | reflexivity]. }
  destruct (String.eqb (backend a) "nengo_spinnaker") eqn:E3; [|discriminate].
  apply String.eqb_eq in E3.
  destruct (has_nengo_spinnaker h); [|discriminate].
  inversion H; subst.
  split; [reflexivity|]. split; [reflexivity | intros Hn; now elim Hn].
Qed.

Lemma init_inv (h : host) (a : args) (self : DynamicsAdaptation) :
  init h a = inr self ->
  exists sim z,
    make_simulator h a (sim_model (self_sim self)) = inr (sim, z) /\
    self = {| self_N_JOINTS := N_JOINTS a;
              self_use_dq := use_dq a;
              self_N_INPUTS := if use_dq a then 2%nat else 1%nat;
              self_u_adapt := repeat 0 (N_JOINTS a);
              self_q := z; self_dq := z; self_training_signal := z;
              self_sim := sim;
              self_backend := backend a |}.
Proof.
  intros H. pose proof (init_model h a self H) as Hm.
  unfold init in H. rewrite Hm in H. simpl in H.
  inv_bind H. destruct x as [sim z]. exists sim, z.
  split; [exact Hx | now inversion H].
Qed.

Lemma initial_transform_no_file (h : host) (a : args) (ens : Ensemble) :
  initial_transform h a "" ens = ok (zeros (N_JOINTS a) (n_neurons ens)).
Proof.
  unfold initial_transform. rewrite isfile_missing by now left.
  now rewrite T_zeros.
Qed.

Lemma first_population_inv (h : host) (a : args) (w : list string)
      (b1 : build) :
  init_population h a w 0 (empty_build a) = inr b1 ->
  exists lo hi path tr,
    getitem (arg_intercepts a) 0 = ok lo /\
    getitem (arg_intercepts a) 1 = ok hi /\
    getitem w 0 = ok path /\
    initial_transform h a path (population_ensemble a lo hi) = ok tr /\
    b1 = first_build a lo hi tr /\
    (1 <= arg_n_neurons a)%nat /\
    (1 <= N_JOINTS a)%nat /\
    0 <= pes_learning_rate a /\
    (backend a <> "nengo_spinnaker" ->
     nrows tr = N_JOINTS a /\ ncols tr = arg_n_neurons a).
Proof.
  intros H. apply init_population_steps in H.
  destruct H as (lo & hi & path & ens & tr
                 & (Hlo & Hhi & Hp & He & Ht & ->) & Hn & Hd & Hlr & Hshape).
  simpl in *. inversion He; subst ens.
  exists lo, hi, path, tr. repeat (split; [assumption|]).
  split; [reflexivity|]. split; [exact Hn|].
  split; [destruct (use_dq a); lia|]. split; [exact Hlr | exact Hshape].
Qed.

Lemma first_population_ok (h : host) (a : args) (w : list string)
      (lo hi : R) (path : string) (tr : matrix) :
  getitem (arg_intercepts a) 0 = ok lo ->
  getitem (arg_intercepts a) 1 = ok hi ->
  (1 <= arg_n_neurons a)%nat ->
  (1 <= N_JOINTS a)%nat ->
  getitem w 0 = ok path ->
  initial_transform h a path (population_ensemble a lo hi) = ok tr ->
  0 <= pes_learning_rate a ->
  (backend a <> "nengo_spinnaker" ->
   nrows tr = N_JOINTS a /\ ncols tr = arg_n_neurons a) ->
  init_population h a w 0 (empty_build a) = ok (first_build a lo hi tr).
Proof.
  intros Hlo Hhi Hn HJ Hp Ht Hlr Hshape. unfold init_population. simpl.
  rewrite Hlo, Hhi. simpl.
  rewrite nengo_Ensemble_ok by (try assumption; destruct (use_dq a); lia).
  simpl. rewrite place_encoders_id. simpl.
  rewrite Hp. simpl.
  change (new_Ensemble (arg_n_neurons a)
            (N_JOINTS a * (if use_dq a then 2 else 1))
            {| dimensions := (N_JOINTS a * (if use_dq a then 2 else 1))%nat;
               base := {| low := lo; high := hi |} |}
            (if spiking a then LIF else LIFRate))
    with (population_ensemble a lo hi).
  rewrite Ht. simpl.
  rewrite connect_learning_ok by assumption. reflexivity.
Qed.

(** One population whose pass completes, and a simulator: the constructor
    returns the module around that network. *)
Lemma init_one_population (h : host) (a : args) (lo hi : R)
      (tr : matrix) (sim : simulator) (z : option vec) :
  n_adapt_pop a = 1%nat ->
  init_population h a (weights_of a) 0 (empty_build a)
  = ok (first_build a lo hi tr) ->
  make_simulator h a (first_build a lo hi tr) = ok (sim, z) ->
  init h a
  = ok {| self_N_JOINTS := N_JOINTS a;
          self_use_dq := use_dq a;
          self_N_INPUTS := if use_dq a then 2%nat else 1%nat;
          self_u_adapt := repeat 0 (N_JOINTS a);
          self_q := z; self_dq := z; self_training_signal := z;
          self_sim := sim;
          self_backend := backend a |}.
Proof.
  intros Hn Hpass Hsim. unfold init, for_range. rewrite Hn. simpl.
  rewrite Hpass. simpl. rewrite Hsim. reflexivity.
Qed.

Lemma default_rate_nonneg : 0 <= 1e-6.
Proof. lra. Qed.

(** The defaults on a host without weight files, for a robot with at least
    one joint and a population of at least one neuron. *)
Lemma init_default_args (h : host) (joints neurons : nat) :
  (1 <= joints)%nat -> (1 <= neurons)%nat ->
  init h (default_args joints neurons)
  = ok {| self_N_JOINTS := joints;
          self_use_dq := false;
          self_N_INPUTS := 1;
          self_u_adapt := repeat 0 joints;
          self_q := None; self_dq := None; self_training_signal := None;
          self_sim :=
            NengoSim (first_build (default_args joints neurons) 0.5 1.0
                                  (zeros joints neurons)) 0.001;
          self_backend := "nengo" |}.
Proof.
  intros HJ HN.
  apply (init_one_population h (default_args joints neurons) 0.5 1.0
           (zeros joints neurons)); try reflexivity.
  apply (first_population_ok h (default_args joints neurons) _ 0.5 1.0 ""
           (zeros joints neurons)); try reflexivity; try assumption.
  - apply initial_transform_no_file.
  - exact default_rate_nonneg.
  - intros _. now split.
Qed.

Lemma seq_one (n : nat) : (1 <= n)%nat -> seq 0 n = 0%nat :: seq 1 (n - 1).
Proof.
  intros H. destruct n as [|n]; [lia|]. simpl. now rewrite Nat.sub_0_r.
Qed.

(** An exception in the first pass is the constructor's exception. *)
Lemma init_first_pass_raises (h : host) (a : args) (e : exn) :
  (1 <= n_adapt_pop a)%nat ->
  init_population h a (weights_of a) 0 (empty_build a) = raise e ->
  init h a = raise e.
Proof.
  intros Hn H. unfold init, for_range. rewrite seq_one by exact Hn.
  simpl. rewrite H. reflexivity.
Qed.

Lemma for_range_one {S} (body : nat -> S -> result S) (s s' : S) :
  for_range 1 body s = inr s' -> body 0%nat s = inr s'.
Proof.
  unfold for_range. simpl.
  destruct (body 0%nat s); simpl; [discriminate | easy].
Qed.

(** ** Weights loaded from a file *)

Lemma eqb_neq_false (s t : string) : s <> t -> String.eqb s t = false.
Proof. intros H. now apply String.eqb_neq. Qed.

Lemma init_checkpoint :
  init checkpoint_host
       (with_weights_file (default_args 1 2) (Some ["weights.npz"]))
  = ok {| self_N_JOINTS := 1;
          self_use_dq := false;
          self_N_INPUTS := 1;
          self_u_adapt := [0];
          self_q := None; self_dq := None; self_training_signal := None;
          self_sim :=
            NengoSim
              (first_build
                 (with_weights_file (default_args 1 2) (Some ["weights.npz"]))
                 0.5 1.0 snapshot_new) 0.001;
          self_backend := "nengo" |}.
Proof.
  apply (init_one_population checkpoint_host
           (with_weights_file (default_args 1 2) (Some ["weights.npz"]))
           0.5 1.0 snapshot_new); try reflexivity.
  apply (first_population_ok checkpoint_host
           (with_weights_file (default_args 1 2) (Some ["weights.npz"]))
           _ 0.5 1.0 "weights.npz" snapshot_new);
    first [ reflexivity | simpl; lia | exact default_rate_nonneg
          | intros _; now split ].
Qed.

Lemma init_checkpoint_spinnaker :
  init checkpoint_spinnaker_host
       (with_backend
          (with_weights_file (default_args 1 2) (Some ["weights.npz"]))
          "nengo_spinnaker")
  = ok {| self_N_JOINTS := 1;
          self_use_dq := false;
          self_N_INPUTS := 1;
          self_u_adapt := [0];
          self_q := Some [0]; self_dq := Some [0];
          self_training_signal := Some [0];
          self_sim :=
            SpinnakerSim
              (first_build
                 (with_backend
                    (with_weights_file (default_args 1 2)
                                       (Some ["weights.npz"]))
                    "nengo_spinnaker")
                 0.5 1.0 snapshot_new);
          self_backend := "nengo_spinnaker" |}.
Proof.
  apply (init_one_population checkpoint_spinnaker_host
           (with_backend
              (with_weights_file (default_args 1 2) (Some ["weights.npz"]))
              "nengo_spinnaker")
           0.5 1.0 snapshot_new); try reflexivity.
  apply (first_population_ok checkpoint_spinnaker_host
           (with_backend
              (with_weights_file (default_args 1 2) (Some ["weights.npz"]))
              "nengo_spinnaker")
           _ 0.5 1.0 "weights.npz" snapshot_new);
    first [ reflexivity | simpl; lia | exact default_rate_nonneg
          | intros Hn; now elim Hn ].
Qed.

(** C5, as worded, fails: the stored matrix is used as it is, not
    transposed; the module built from the two-checkpoint file carries the
    newer 1 x 2 matrix itself as its learning transform. *)
Lemma C5_loaded_snapshot_not_transposed :
  initial_transform checkpoint_host (default_args 1 2) "weights.npz"
    (new_Ensemble 2 1 intercepts_1d LIFRate) = ok snapshot_new /\
  initial_transform checkpoint_host (default_args 1 2) "weights.npz"
    (new_Ensemble 2 1 intercepts_1d LIFRate) <> ok (T snapshot_new) /\
  exists self,
    init checkpoint_host
         (with_weights_file (default_args 1 2) (Some ["weights.npz"]))
    = inr self /\
    conn_learn (sim_model (self_sim self))
    = [FromNeurons 0 1e-6 snapshot_new] /\
    conn_learn (sim_model (self_sim self))
    <> [FromNeurons 0 1e-6 (T snapshot_new)].
Proof.
  split; [reflexivity|]. split.
  - intros H. apply (f_equal (fun r => match r with
                                       | inr m => nrows m
                                       | inl _ => 0%nat
                                       end)) in H.
    simpl in H. discriminate H.
  - eexists. split; [exact init_checkpoint|]. split; [reflexivity|].
    simpl. intros H. inversion H.
Qed.

(** C5, amended: when the weights path names a file whose ['weights']
    entry ends with the snapshot [m :: rest], every module the constructor
    returns (with its one population) has [m], the first matrix of that
    last snapshot, as the transform of its learning connection exactly as
    stored, not transposed; so [m] already has the shape (joints, neurons),
    and a stored matrix of another shape makes the constructor raise.  Only
    on nengo_spinnaker is the transpose of [m] given to the fixed solver,
    unchecked. *)
Theorem C5_last_snapshot_as_stored
    (h : host) (a : args) (self : DynamicsAdaptation)
    (path : string) (others : list string) (z : npz) (k : string)
    (older : list (list matrix)) (m : matrix) (rest : list matrix) :
  init h a = inr self ->
  n_adapt_pop a = 1%nat ->
  weights_file a = Some (path :: others) ->
  path <> "" ->
  files h path = Some z ->
  find (fun kv => String.eqb (fst kv) "weights") z
  = Some (k, older ++ [m :: rest]) ->
  (backend a <> "nengo_spinnaker" ->
   conn_learn (sim_model (self_sim self))
   = [FromNeurons 0 (pes_learning_rate a) m] /\
   nrows m = N_JOINTS a /\ ncols m = arg_n_neurons a) /\
  (backend a = "nengo_spinnaker" ->
   conn_learn (sim_model (self_sim self))
   = [FromEnsemble 0 (pes_learning_rate a) (T m)]).
Proof.
  intros H Hn Hw Hp Hz Hk.
  pose proof (init_model h a self H) as Hm. rewrite Hn in Hm.
  apply for_range_one in Hm. apply first_population_inv in Hm.
  destruct Hm as (lo & hi & path' & tr & _ & _ & Hpath & Ht & HM
                  & _ & _ & _ & Hshape).
  unfold weights_of in Hpath. rewrite Hw in Hpath. simpl in Hpath.
  inversion Hpath; subst path'.
  unfold initial_transform, isfile, np_load_key in Ht.
  rewrite eqb_neq_false in Ht by exact Hp. rewrite Hz, Hk in Ht.
  cbn [bind snd] in Ht. unfold ok at 1 in Ht. cbn [bind] in Ht.
  rewrite getlast_snoc in Ht. simpl in Ht. inversion Ht; subst tr.
  rewrite HM. unfold first_build, learning_connection. simpl.
  split; intros Hb.
  - rewrite eqb_neq_false by exact Hb. split; [reflexivity | now apply Hshape].
  - rewrite Hb. reflexivity.
Qed.

(** The two-checkpoint file on the reference backend and on
    nengo_spinnaker. *)
Lemma C5_last_snapshot_witness :
  (exists self,
      init checkpoint_host
           (with_weights_file (default_args 1 2) (Some ["weights.npz"]))
      = inr self /\
      conn_learn (sim_model (self_sim self))
      = [FromNeurons 0 1e-6 snapshot_new] /\
      nrows snapshot_new = 1%nat /\ ncols snapshot_new = 2%nat) /\
  (exists self,
      init checkpoint_spinnaker_host
           (with_backend
              (with_weights_file (default_args 1 2) (Some ["weights.npz"]))
              "nengo_spinnaker")
      = inr self /\
      conn_learn (sim_model (self_sim self))
      = [FromEnsemble 0 1e-6 (T snapshot_new)]).
Proof.
  split.
  - eexists. split; [exact init_checkpoint|].
    destruct (C5_last_snapshot_as_stored checkpoint_host
                (with_weights_file (default_args 1 2) (Some ["weights.npz"]))
                _ "weights.npz" [] checkpoint_file "weights"
                [[snapshot_old]] snapshot_new []
                init_checkpoint eq_refl eq_refl ltac:(discriminate)
                eq_refl eq_refl) as (Hnengo & _).
    apply Hnengo. discriminate.
  - eexists. split; [exact init_checkpoint_spinnaker|].
    destruct (C5_last_snapshot_as_stored checkpoint_spinnaker_host
                (with_backend
                   (with_weights_file (default_args 1 2)
                                      (Some ["weights.npz"]))
                   "nengo_spinnaker")
                _ "weights.npz" [] checkpoint_file "weights"
                [[snapshot_old]] snapshot_new []
                init_checkpoint_spinnaker eq_refl eq_refl ltac:(discriminate)
                eq_refl eq_refl) as (_ & Hspin).
    apply Hspin. reflexivity.
Defined.

(** ** Backends *)

Lemma make_simulator_unavailable (h : host) (a : args) (model : build) :
  (backend a <> "nengo" /\ backend a <> "nengo_ocl"
   /\ backend a <> "nengo_spinnaker")
  \/ (backend a = "nengo_ocl" /\ has_nengo_ocl h = false)
  \/ (backend a = "nengo_spinnaker" /\ has_nengo_spinnaker h = false) ->
  exists msg, make_simulator h a model = raise (Exception msg).
Proof.
  unfold make_simulator.
  intros [(H1 & H2 & H3) | [[Hb Hm] | [Hb Hm]]].
  - rewrite !eqb_neq_false by assumption. now eexists.
  - rewrite Hb, Hm. simpl. now eexists.
  - rewrite Hb, Hm. simpl. now eexists.
Qed.

(** C6: an unrecognized backend name, or nengo_ocl or nengo_spinnaker
    without its package, makes the constructor raise; the simulator
    selection itself raises [Exception] and hands out no other simulator. *)
Theorem C6_unavailable_backend_is_fatal (h : host) (a : args) :
  (backend a <> "nengo" /\ backend a <> "nengo_ocl"
   /\ backend a <> "nengo_spinnaker")
  \/ (backend a = "nengo_ocl" /\ has_nengo_ocl h = false)
  \/ (backend a = "nengo_spinnaker" /\ has_nengo_spinnaker h = false) ->
  (exists e, init h a = inl e) /\
  (forall model, exists msg,
      make_simulator h a model = raise (Exception msg)).
Proof.
  intros Hb. split.
  - unfold init.
    destruct (for_range (n_adapt_pop a) (init_population h a (weights_of a))
                        (empty_build a)) as [e|model]; simpl.
    + now exists e.
    + destruct (make_simulator_unavailable h a model Hb) as [msg ->].
      now eexists.
  - intros model. now apply make_simulator_unavailable.
Qed.

(** nengo_ocl on a host without it, and a misspelled backend. *)
Lemma C6_unavailable_backend_witness :
  (exists e, init bare_host (with_backend (default_args 2 50) "nengo_ocl")
             = inl e) /\
  (exists e, init bare_host (with_backend (default_args 2 50) "nengo_gpu")
             = inl e).
Proof.
  split.
  - apply (C6_unavailable_backend_is_fatal bare_host
             (with_backend (default_args 2 50) "nengo_ocl")).
    right. left. split; reflexivity.
  - apply (C6_unavailable_backend_is_fatal bare_host
             (with_backend (default_args 2 50) "nengo_gpu")).
    left. repeat split; discriminate.
Defined.

(** ** The training signal *)

Lemma map_error_conn_signal (a : args) (x : vec) (n k : nat) :
  map (fun ii => error_conn_signal (error_connection a ii) x) (seq k n)
  = repeat (scale (-1) (gate_error (filter_error a) x)) n.
Proof.
  revert k. induction n as [|n IH]; intros k; simpl.
  - reflexivity.
  - now rewrite IH.
Qed.



(** ** Encoder placement *)

(** C9: lines 132-139 never place the encoders.  With nengolib installed
    the constructor still returns a module whose only ensemble keeps the
    default, independently drawn, encoders. *)
Theorem C9_nengolib_placement_not_applied :
  (forall (h : host) (ens : list Ensemble), place_encoders h ens = ok ens) /\
  exists self,
    init nengolib_host (default_args 2 50) = inr self /\
    map encoders (adapt_ens (sim_model (self_sim self))) = [DefaultEncoders].
Proof.
  split; [exact place_encoders_id|].
  eexists. split; [apply (init_default_args nengolib_host 2 50); lia|].
  reflexivity.
Qed.

(** The same for every host and every configuration that constructs. *)
Lemma init_encoders_default
      (h : host) (a : args) (self : DynamicsAdaptation) :
  init h a = inr self ->
  Forall (fun e => encoders e = DefaultEncoders)
         (adapt_ens (sim_model (self_sim self))).
Proof.
  intros H. apply init_model in H. unfold for_range in H.
  apply (for_each_encoders _ _ _ _ _ _ H). constructor.
Qed.

(** ** Several populations *)

(** C10: with two or more populations the constructor raises; when the
    first pass through the loop completes, the second raises TypeError on
    indexing the rebound [intercepts]. *)
Theorem C10_second_population_fails (h : host) (a : args) :
  (2 <= n_adapt_pop a)%nat ->
  (exists e, init h a = inl e) /\
  (forall b1,
      init_population h a (weights_of a) 0 (empty_build a) = inr b1 ->
      init h a
      = raise (TypeError "'AreaIntercepts' object is not subscriptable")).
Proof.
  intros Hn.
  destruct (for_each_two_passes h a (weights_of a) 0 1
              (seq 2 (n_adapt_pop a - 2)) (empty_build a)) as [[e He] H2].
  unfold init, for_range. rewrite seq_two by exact Hn. split.
  - exists e. now rewrite He.
  - intros b1 H1. now rewrite (H2 b1 H1).
Qed.

(** Two populations on the defaults: the first pass completes, the second
    raises. *)
Lemma C10_second_population_witness :
  init bare_host (with_n_adapt_pop (default_args 2 50) 2)
  = raise (TypeError "'AreaIntercepts' object is not subscriptable").
Proof.
  eapply (C10_second_population_fails bare_host
            (with_n_adapt_pop (default_args 2 50) 2)).
  - simpl. lia.
  - apply (first_population_ok bare_host
             (with_n_adapt_pop (default_args 2 50) 2) _ 0.5 1.0 ""
             (zeros 2 50));
      first [ reflexivity | simpl; lia | exact default_rate_nonneg
            | intros _; now split ].
Defined.

(** One population, the defaults and the reference simulator: the
    constructor returns a module with one ensemble and zero weights. *)
Lemma init_default_succeeds :
  exists self,
    init bare_host (default_args 2 50) = inr self /\
    List.length (adapt_ens (sim_model (self_sim self))) = 1%nat /\
    conn_learn (sim_model (self_sim self))
    = [FromNeurons 0 1e-6 (zeros 2 50)].
Proof.
  eexists. split; [apply (init_default_args bare_host 2 50); lia|].
  split; reflexivity.
Qed.

(** * Further properties of the module *)

(** ** gate_error: size, direction, composition *)

Lemma scale_one (x : vec) : scale 1 x = x.
Proof.
  unfold scale. induction x as [|v x IH]; simpl; [reflexivity|].
  rewrite IH. f_equal. ring.
Qed.

Lemma idiv_as_scale (x : vec) (c : R) : idiv x c = scale (/ c) x.
Proof.
  unfold idiv, scale. apply map_ext. intros v. unfold Rdiv. ring.
Qed.

Lemma idiv_scale_opp (x : vec) (c : R) :
  idiv (scale (-1) x) c = scale (-1) (idiv x c).
Proof.
  unfold idiv, scale. rewrite !map_map. apply map_ext. intros v.
  unfold Rdiv. ring.
Qed.

(** The gate returns a positive multiple of its argument, never a longer
    one: [c * x] with [0 < c <= 1]. *)
Theorem gate_error_shrinks (filter_error : bool) (x : vec) :
  exists c : R, 0 < c <= 1 /\ gate_error filter_error x = scale c x.
Proof.
  unfold gate_error. destruct filter_error.
  - destruct (Rlt_dec 2.0 (norm x)) as [Hbig|Hsmall].
    + exists (/ (norm x * 0.5)). split; [|apply idiv_as_scale].
      split.
      * apply Rinv_0_lt_compat. lra.
      * rewrite <- Rinv_1. apply Rinv_le_contravar; lra.
    + exists 1. split; [lra | now rewrite scale_one].
  - exists 1. split; [lra | now rewrite scale_one].
Qed.

Lemma norm_gate_error_le (x : vec) : norm (gate_error true x) <= 2.0.
Proof.
  destruct (Rlt_dec 2.0 (norm x)) as [Hbig|Hsmall].
  - rewrite norm_gate_error_above by exact Hbig. lra.
  - rewrite gate_error_below by lra. lra.
Qed.

(** With the gate on, nothing of norm above 2.0 reaches the learning
    rule, and the gate never lengthens a vector. *)
Theorem gate_error_bounded (x : vec) :
  norm (gate_error true x) <= 2.0 /\
  norm (gate_error true x) <= norm x /\
  norm (scale (-1) (gate_error true x)) <= 2.0.
Proof.
  rewrite norm_scale_opp.
  destruct (Rlt_dec 2.0 (norm x)) as [Hbig|Hsmall].
  - rewrite norm_gate_error_above by exact Hbig. lra.
  - rewrite gate_error_below by lra. lra.
Qed.

(** Gating twice is gating once. *)
Theorem gate_error_idempotent (filter_error : bool) (x : vec) :
  gate_error filter_error (gate_error filter_error x)
  = gate_error filter_error x.
Proof.
  destruct filter_error; [|reflexivity].
  apply gate_error_below. apply norm_gate_error_le.
Qed.

(** The gate and the sign inversion commute: gating the negated training
    signal gives what the connection computes. *)
Theorem gate_error_commutes_with_inversion
    (a : args) (ii : nat) (x : vec) :
  gate_error (filter_error a) (scale (-1) x)
  = error_conn_signal (error_connection a ii) x.
Proof.
  rewrite error_conn_signal_eq. unfold gate_error.
  destruct (filter_error a); [|reflexivity].
  rewrite norm_scale_opp.
  destruct (Rlt_dec 2.0 (norm x)); [|reflexivity].
  apply idiv_scale_opp.
Qed.

(** ** wrap_angle: period and fixed points *)

Lemma pymod_shift (x m : R) (k : Z) :
  0 < m -> pymod (x + IZR k * m) m = pymod x m.
Proof.
  intros Hm.
  pose proof (pymod_range x m Hm) as Hr.
  set (r := pymod x m) in *.
  replace (x + IZR k * m)
    with (r + IZR (Int_part (x / m) + k) * m).
  - now apply pymod_period.
  - subst r. unfold pymod, floor. rewrite plus_IZR. ring.
Qed.

(** Whole turns do not change the wrapped angle. *)
Theorem wrap_angle_periodic (q : R) (k : Z) :
  wrap_angle (q + IZR k * (2 * PI)) = wrap_angle q.
Proof.
  unfold wrap_angle. pose proof PI_RGT_0 as Hpi.
  replace (q + IZR k * (2 * PI) + PI) with ((q + PI) + IZR k * (PI * 2))
    by ring.
  rewrite pymod_shift by lra. reflexivity.
Qed.

Lemma wrap_angle_in_range (q : R) : - PI <= q < PI -> wrap_angle q = q.
Proof.
  intros Hq. unfold wrap_angle.
  replace (q + PI) with ((q + PI) + IZR 0 * (PI * 2)) by ring.
  rewrite pymod_period; lra.
Qed.

(** An angle already in [-pi, pi) is left alone, so wrapping twice is
    wrapping once. *)
Theorem wrap_angle_fixed_points (q : R) :
  (- PI <= q < PI -> wrap_angle q = q) /\
  wrap_angle (wrap_angle q) = wrap_angle q.
Proof.
  split.
  - apply wrap_angle_in_range.
  - apply wrap_angle_in_range. apply wrap_angle_range.
Qed.

Lemma wrap_angle_fixed_points_witness :
  wrap_angle 1 = 1 /\ wrap_angle (wrap_angle 1) = wrap_angle 1.
Proof.
  destruct (wrap_angle_fixed_points 1) as [Hfix Hidem].
  split; [|exact Hidem].
  apply Hfix. pose proof PI2_1. lra.
Defined.

(** ** AreaIntercepts: sign, range, order *)

Lemma sqrt_unit (t : R) : 0 <= t <= 1 -> 0 <= sqrt t <= 1.
Proof.
  intros [H0 H1]. split; [apply sqrt_pos|].
  rewrite <- sqrt_1. now apply sqrt_le_1_alt.
Qed.

(** When [betaincinv] sends [0, 1] into [0, 1], the intercept has the sign
    opposite to the base sample: a sample in (0, 1] gives an intercept in
    [-1, 0], a sample in [-1, 0] an intercept in [0, 1]. *)
Theorem transform_flips_sign
    (betaincinv : R -> R -> R -> R) (self : AreaIntercepts) (x : R) :
  (forall y, 0 <= y <= 1 ->
     0 <= betaincinv ((INR (dimensions self) + 1) / 2.0) 0.5 y <= 1) ->
  (0 < x <= 1 -> -1 <= transform betaincinv self x <= 0) /\
  (-1 <= x <= 0 -> 0 <= transform betaincinv self x <= 1).
Proof.
  intros HB. split; intros Hx.
  - rewrite transform_pos by lra.
    specialize (HB (- x + 1)).
    match goal with
    | |- _ <= - sqrt ?X <= _ => pose proof (sqrt_unit X) as Hs
    end.
    lra.
  - rewrite transform_nonpos by lra.
    specialize (HB (x + 1)).
    match goal with
    | |- _ <= sqrt ?X <= _ => pose proof (sqrt_unit X) as Hs
    end.
    lra.
Qed.

Lemma betaincinv_dim1_range (a b y : R) :
  0 <= y <= 1 -> 0 <= betaincinv_dim1 a b y <= 1.
Proof. intros Hy. unfold betaincinv_dim1. nra. Qed.

Lemma transform_flips_sign_witness :
  -1 <= transform betaincinv_dim1 intercepts_1d 0.5 <= 0 /\
  0 <= transform betaincinv_dim1 intercepts_1d (- (0.5)) <= 1.
Proof.
  split.
  - apply (transform_flips_sign betaincinv_dim1 intercepts_1d 0.5
             (fun y Hy => betaincinv_dim1_range _ _ y Hy)). lra.
  - apply (transform_flips_sign betaincinv_dim1 intercepts_1d (- (0.5))
             (fun y Hy => betaincinv_dim1_range _ _ y Hy)). lra.
Defined.

Lemma transform_bounded
    (betaincinv : R -> R -> R -> R) (self : AreaIntercepts) (x : R) :
  (forall y, 0 <= y <= 1 ->
     0 <= betaincinv ((INR (dimensions self) + 1) / 2.0) 0.5 y <= 1) ->
  -1 <= x <= 1 ->
  -1 <= transform betaincinv self x <= 1.
Proof.
  intros HB Hx. destruct (Rlt_dec 0 x) as [Hpos|Hneg].
  - rewrite transform_pos by exact Hpos.
    specialize (HB (- x + 1)).
    match goal with
    | |- _ <= - sqrt ?X <= _ => pose proof (sqrt_unit X) as Hs
    end.
    lra.
  - rewrite transform_nonpos by lra.
    specialize (HB (x + 1)).
    match goal with
    | |- _ <= sqrt ?X <= _ => pose proof (sqrt_unit X) as Hs
    end.
    lra.
Qed.

Lemma betaincinv_dim1_monotone (a b y1 y2 : R) :
  0 <= y1 -> y1 <= y2 -> y2 <= 1 ->
  betaincinv_dim1 a b y1 <= betaincinv_dim1 a b y2.
Proof. intros H0 H12 H1. unfold betaincinv_dim1. nra. Qed.

(** When [betaincinv] sends [0, 1] into [0, 1], as the inverse of a
    distribution function does, a base sample in [-1, 1] gives an
    intercept in [-1, 1]; [sample] then keeps the number of samples and
    returns intercepts in [-1, 1] for base samples in [-1, 1]. *)
Theorem sample_in_range
    (betaincinv : R -> R -> R -> R) (self : AreaIntercepts) (s : vec) :
  (forall y, 0 <= y <= 1 ->
     0 <= betaincinv ((INR (dimensions self) + 1) / 2.0) 0.5 y <= 1) ->
  (forall x, -1 <= x <= 1 -> -1 <= transform betaincinv self x <= 1) /\
  (Forall (fun x => -1 <= x <= 1) s ->
   List.length (sample betaincinv self s) = List.length s /\
   Forall (fun y => -1 <= y <= 1) (sample betaincinv self s)).
Proof.
  intros HB. split.
  - intros x Hx. now apply transform_bounded.
  - intros Hs. rewrite sample_map. split; [apply length_map|].
    induction Hs as [|x s Hx Hs IH]; simpl; constructor.
    + now apply transform_bounded.
    + exact IH.
Qed.

Lemma sample_in_range_witness :
  -1 <= transform betaincinv_dim1 intercepts_1d 0.5 <= 1 /\
  List.length (sample betaincinv_dim1 intercepts_1d [0.5; -1; 0]) = 3%nat /\
  Forall (fun y => -1 <= y <= 1)
         (sample betaincinv_dim1 intercepts_1d [0.5; -1; 0]).
Proof.
  destruct (sample_in_range betaincinv_dim1 intercepts_1d [0.5; -1; 0]
              (fun y Hy => betaincinv_dim1_range _ _ y Hy)) as [Ht Hs].
  split.
  - apply Ht. lra.
  - apply Hs. repeat constructor; lra.
Defined.

(** When [betaincinv] is non-decreasing on [0, 1] the transform reverses
    the order of base samples in [-1, 1]. *)
Theorem transform_reverses_order
    (betaincinv : R -> R -> R -> R) (self : AreaIntercepts) (x1 x2 : R) :
  (forall y1 y2, 0 <= y1 -> y1 <= y2 -> y2 <= 1 ->
     betaincinv ((INR (dimensions self) + 1) / 2.0) 0.5 y1
     <= betaincinv ((INR (dimensions self) + 1) / 2.0) 0.5 y2) ->
  -1 <= x1 -> x1 <= x2 -> x2 <= 1 ->
  transform betaincinv self x2 <= transform betaincinv self x1.
Proof.
  intros HB Hlo H12 Hhi.
  destruct (Rlt_dec 0 x1) as [Hp1|Hn1].
  - rewrite (transform_pos betaincinv self x1) by exact Hp1.
    rewrite (transform_pos betaincinv self x2) by lra.
    apply Ropp_le_contravar. apply sqrt_le_1_alt.
    specialize (HB (- x2 + 1) (- x1 + 1)). lra.
  - destruct (Rlt_dec 0 x2) as [Hp2|Hn2].
    + pose proof (transform_pos_sign betaincinv self x2 Hp2).
      rewrite (transform_nonpos betaincinv self x1) by lra.
      match goal with |- _ <= sqrt ?X => pose proof (sqrt_pos X) end. lra.
    + rewrite (transform_nonpos betaincinv self x1) by lra.
      rewrite (transform_nonpos betaincinv self x2) by lra.
      apply sqrt_le_1_alt.
      specialize (HB (x1 + 1) (x2 + 1)). lra.
Qed.

Lemma transform_reverses_order_witness :
  transform betaincinv_dim1 intercepts_1d 0.5
  <= transform betaincinv_dim1 intercepts_1d (- (0.5)).
Proof.
  apply (transform_reverses_order betaincinv_dim1 intercepts_1d (- (0.5)) 0.5).
  - intros y1 y2. apply betaincinv_dim1_monotone.
  - lra.
  - lra.
  - lra.
Defined.

(** When [betaincinv] fixes 0 and 1 the ends of the base range are swapped
    and 0 stays: -1 goes to 1, 0 to 0, 1 to -1. *)
Theorem transform_endpoints
    (betaincinv : R -> R -> R -> R) (self : AreaIntercepts) :
  betaincinv ((INR (dimensions self) + 1) / 2.0) 0.5 0 = 0 ->
  betaincinv ((INR (dimensions self) + 1) / 2.0) 0.5 1 = 1 ->
  transform betaincinv self (-1) = 1 /\
  transform betaincinv self 0 = 0 /\
  transform betaincinv self 1 = -1.
Proof.
  intros H0 H1. split; [|split].
  - rewrite transform_nonpos by lra.
    replace (-1 + 1) with 0 by lra. rewrite H0, Rminus_0_r. apply sqrt_1.
  - rewrite transform_nonpos by lra.
    replace (0 + 1) with 1 by lra. rewrite H1.
    replace (1 - 1) with 0 by lra. apply sqrt_0.
  - rewrite transform_pos by lra.
    replace (- (1) + 1) with 0 by lra. rewrite H0, Rminus_0_r, sqrt_1. lra.
Qed.

Lemma transform_endpoints_witness :
  transform betaincinv_dim1 intercepts_1d (-1) = 1 /\
  transform betaincinv_dim1 intercepts_1d 0 = 0 /\
  transform betaincinv_dim1 intercepts_1d 1 = -1.
Proof.
  apply (transform_endpoints betaincinv_dim1 intercepts_1d);
    unfold betaincinv_dim1; lra.
Defined.

(** ** The constructor: what it builds and when it raises *)

(** With no population the loop is skipped: on the reference backend the
    module is constructed around an empty network, and every step after
    a [generate] finds no learning rule to feed. *)
Theorem init_without_population
    (h : host) (a : args) (sim_run : DynamicsAdaptation -> vec)
    (q dq training_signal : vec) :
  n_adapt_pop a = 0%nat -> backend a = "nengo" ->
  exists self,
    init h a = inr self /\
    self_sim self = NengoSim (empty_build a) 0.001 /\
    adapt_ens (sim_model (self_sim self)) = [] /\
    conn_learn (sim_model (self_sim self)) = [] /\
    learning_rule_inputs (fst (generate sim_run self q dq training_signal))
    = ok [].
Proof.
  intros Hn Hb. unfold init, for_range, make_simulator.
  rewrite Hn, Hb. simpl. eexists. split; [reflexivity|].
  repeat split; reflexivity.
Qed.

Lemma init_without_population_witness :
  exists self,
    init bare_host (with_n_adapt_pop (default_args 2 50) 0) = inr self /\
    self_sim self
    = NengoSim (empty_build (with_n_adapt_pop (default_args 2 50) 0)) 0.001 /\
    adapt_ens (sim_model (self_sim self)) = [] /\
    conn_learn (sim_model (self_sim self)) = [] /\
    learning_rule_inputs
      (fst (generate (fun s => self_u_adapt s) self [0; 0] [0; 0] [1; 1]))
    = ok [].
Proof.
  apply (init_without_population bare_host
           (with_n_adapt_pop (default_args 2 50) 0)
           (fun s => self_u_adapt s) [0; 0] [0; 0] [1; 1]);
    reflexivity.
Defined.

(** An [intercepts] argument with fewer than two entries makes the
    constructor raise IndexError as soon as there is a population. *)
Theorem init_short_intercepts (h : host) (a : args) :
  (1 <= n_adapt_pop a)%nat ->
  (List.length (arg_intercepts a) < 2)%nat ->
  init h a = raise IndexError.
Proof.
  intros Hn Hl. apply init_first_pass_raises; [exact Hn|].
  unfold init_population. simpl.
  destruct (arg_intercepts a) as [|lo [|hi rest]].
  - reflexivity.
  - reflexivity.
  - simpl in Hl. lia.
Qed.

Lemma init_short_intercepts_witness :
  init bare_host short_intercepts_args = raise IndexError.
Proof.
  apply (init_short_intercepts bare_host short_intercepts_args).
  - simpl. lia.
  - simpl. lia.
Defined.

Lemma getitem_two (l : list R) :
  (2 <= List.length l)%nat ->
  exists lo hi, getitem l 0 = ok lo /\ getitem l 1 = ok hi.
Proof.
  destruct l as [|lo [|hi rest]]; simpl; intros H; try lia.
  now exists lo, hi.
Qed.

(** Once the ensemble of the first population has passed validation,
    exceptions raised while its weights are looked up or loaded leave the
    constructor. *)
Lemma init_weights_raise (h : host) (a : args) (e : exn) (ens : Ensemble) :
  (1 <= n_adapt_pop a)%nat ->
  (2 <= List.length (arg_intercepts a))%nat ->
  (1 <= arg_n_neurons a)%nat ->
  (1 <= N_JOINTS a)%nat ->
  (path <- getitem (weights_of a) 0 ;; initial_transform h a path ens)
  = raise e ->
  init h a = raise e.
Proof.
  intros Hn Hl HN HJ H. apply init_first_pass_raises; [exact Hn|].
  destruct (getitem_two _ Hl) as (lo & hi & Hlo & Hhi).
  unfold init_population. simpl. rewrite Hlo, Hhi. simpl.
  rewrite nengo_Ensemble_ok by (try assumption; destruct (use_dq a); lia).
  simpl. rewrite place_encoders_id. simpl.
  destruct (getitem (weights_of a) 0) as [e'|path]; simpl in *;
    [now inversion H|].
  unfold initial_transform in *.
  destruct (isfile h path); [|discriminate H].
  destruct (np_load_key h path "weights") as [e1|w]; simpl in *;
    [now inversion H|].
  destruct (getlast w) as [e2|snap]; simpl in *; [now inversion H|].
  destruct (getitem snap 0) as [e3|m]; simpl in *; [now inversion H|].
  discriminate H.
Qed.

(** With at least one joint and one neuron, so that the ensemble of line
    126 is accepted, a [weights_file] list with no entry for the first
    population raises IndexError on line 148. *)
Theorem init_empty_weights_list (h : host) (a : args) :
  (1 <= n_adapt_pop a)%nat ->
  (2 <= List.length (arg_intercepts a))%nat ->
  (1 <= arg_n_neurons a)%nat ->
  (1 <= N_JOINTS a)%nat ->
  weights_file a = Some [] ->
  init h a = raise IndexError.
Proof.
  intros Hn Hl HN HJ Hw.
  apply (init_weights_raise h a IndexError
           (new_Ensemble 0 0 intercepts_1d LIF)); try assumption.
  unfold weights_of. rewrite Hw. reflexivity.
Qed.

Lemma init_empty_weights_list_witness :
  init bare_host (with_weights_file (default_args 2 50) (Some []))
  = raise IndexError.
Proof.
  apply (init_empty_weights_list bare_host
           (with_weights_file (default_args 2 50) (Some []))).
  - simpl. lia.
  - simpl. lia.
  - simpl. lia.
  - simpl. lia.
  - reflexivity.
Defined.

Lemma getlast_repeat {A} (x : A) (n : nat) : getlast (repeat x (S n)) = ok x.
Proof.
  replace (repeat x (S n)) with (repeat x n ++ [x]).
  - apply getlast_snoc.
  - symmetry. apply (repeat_cons n x).
Qed.

(** With at least one joint and one neuron, a weight file that exists but
    cannot be indexed as ['weights'][-1][0] is fatal: KeyError without the
    ['weights'] entry, IndexError when the entry holds no snapshot or its
    snapshots are empty. *)
Theorem init_unreadable_weights
    (h : host) (a : args) (path : string) (others : list string) (z : npz) :
  (1 <= n_adapt_pop a)%nat ->
  (2 <= List.length (arg_intercepts a))%nat ->
  (1 <= arg_n_neurons a)%nat ->
  (1 <= N_JOINTS a)%nat ->
  weights_file a = Some (path :: others) ->
  path <> "" ->
  files h path = Some z ->
  (find (fun kv => String.eqb (fst kv) "weights") z = None ->
   init h a = raise (KeyError "weights")) /\
  (forall k, find (fun kv => String.eqb (fst kv) "weights") z = Some (k, []) ->
   init h a = raise IndexError) /\
  (forall k n,
      find (fun kv => String.eqb (fst kv) "weights") z
      = Some (k, repeat [] (S n)) ->
      init h a = raise IndexError).
Proof.
  intros Hn Hl HN HJ Hw Hp Hz.
  assert (Hfile : isfile h path = true).
  { unfold isfile. rewrite eqb_neq_false by exact Hp. now rewrite Hz. }
  assert (Hgo : forall e,
             (w <- np_load_key h path "weights" ;;
              snapshot <- getlast w ;; getitem snapshot 0) = raise e ->
             init h a = raise e).
  { intros e He.
    apply (init_weights_raise h a e (new_Ensemble 0 0 intercepts_1d LIF));
      try assumption.
    unfold weights_of. rewrite Hw. simpl.
    unfold initial_transform. rewrite Hfile. exact He. }
  unfold np_load_key in Hgo. rewrite Hz in Hgo.
  split; [|split].
  - intros Hk. apply Hgo. now rewrite Hk.
  - intros k Hk. apply Hgo. now rewrite Hk.
  - intros k n Hk. apply Hgo. rewrite Hk.
    cbn [bind snd]. unfold ok at 1. cbn [bind].
    now rewrite getlast_repeat.
Qed.

Lemma init_unreadable_weights_witness :
  init damaged_host
       (with_weights_file (default_args 2 50) (Some ["no_key.npz"]))
  = raise (KeyError "weights") /\
  init damaged_host
       (with_weights_file (default_args 2 50) (Some ["no_snapshot.npz"]))
  = raise IndexError /\
  init damaged_host
       (with_weights_file (default_args 2 50) (Some ["empty_snapshot.npz"]))
  = raise IndexError.
Proof.
  assert (H1 : (1 <= 1)%nat) by lia.
  assert (H2 : (2 <= 2)%nat) by lia.
  assert (H50 : (1 <= 50)%nat) by lia.
  assert (HJ : (1 <= 2)%nat) by lia.
  split; [|split].
  - destruct (init_unreadable_weights damaged_host
                (with_weights_file (default_args 2 50) (Some ["no_key.npz"]))
                "no_key.npz" [] [("activity", [])] H1 H2 H50 HJ eq_refl
                ltac:(discriminate) eq_refl) as (Hkey & _ & _).
    exact (Hkey eq_refl).
  - destruct (init_unreadable_weights damaged_host
                (with_weights_file (default_args 2 50)
                                   (Some ["no_snapshot.npz"]))
                "no_snapshot.npz" [] [("weights", [])] H1 H2 H50 HJ eq_refl
                ltac:(discriminate) eq_refl) as (_ & Hnone & _).
    exact (Hnone "weights" eq_refl).
  - destruct (init_unreadable_weights damaged_host
                (with_weights_file (default_args 2 50)
                                   (Some ["empty_snapshot.npz"]))
                "empty_snapshot.npz" [] [("weights", [[]; []])]
                H1 H2 H50 HJ eq_refl ltac:(discriminate) eq_refl)
      as (_ & _ & Hlast).
    exact (Hlast "weights" 1%nat eq_refl).
Defined.

(** Whenever the constructor returns with one population, intercepts
    (lo, hi, ...), no weights_file and the reference backend, the module is
    this one: one ensemble of joints x inputs dimensions over
    Uniform(lo, hi) intercepts, one input connection, one learning
    connection from the neurons with zero weights of shape (joints,
    neurons), one error connection, q, dq and the training signal still
    unset; and then there is at least one joint and one neuron and the
    learning rate is not negative. *)
Theorem init_single_population
    (h : host) (a : args) (self : DynamicsAdaptation)
    (lo hi : R) (rest : list R) :
  init h a = inr self ->
  n_adapt_pop a = 1%nat ->
  arg_intercepts a = lo :: hi :: rest ->
  weights_file a = None ->
  backend a = "nengo" ->
  self
  = {| self_N_JOINTS := N_JOINTS a;
       self_use_dq := use_dq a;
       self_N_INPUTS := if use_dq a then 2%nat else 1%nat;
       self_u_adapt := repeat 0 (N_JOINTS a);
       self_q := None; self_dq := None; self_training_signal := None;
       self_sim :=
         NengoSim
           {| intercepts_var := Dist (population_intercepts a lo hi);
              adapt_ens := [population_ensemble a lo hi];
              conn_in := [{| in_post := 0;
                             in_slice := (N_JOINTS a
                                          * (if use_dq a then 2 else 1))%nat;
                             in_synapse := 0.005 |}];
              conn_learn := [FromNeurons 0 (pes_learning_rate a)
                               (zeros (N_JOINTS a) (arg_n_neurons a))];
              conn_err := [error_connection a 0] |}
           0.001;
       self_backend := "nengo" |} /\
  (1 <= arg_n_neurons a)%nat /\
  (1 <= N_JOINTS a)%nat /\
  0 <= pes_learning_rate a.
Proof.
  intros H Hn Hi Hw Hb.
  pose proof (init_model h a self H) as Hm. rewrite Hn in Hm.
  apply for_range_one in Hm. apply first_population_inv in Hm.
  destruct Hm as (lo' & hi' & path & tr & Hlo & Hhi & Hp & Ht & HM
                  & HN & HJ & Hlr & _).
  rewrite Hi in Hlo, Hhi. simpl in Hlo, Hhi.
  inversion Hlo; subst lo'. inversion Hhi; subst hi'.
  unfold weights_of in Hp. rewrite Hw, Hn in Hp. simpl in Hp.
  inversion Hp; subst path.
  rewrite initial_transform_no_file in Ht. inversion Ht; subst tr.
  destruct (init_inv h a self H) as (sim & z & Hsim & Hself).
  rewrite HM in Hsim. unfold make_simulator in Hsim. rewrite Hb in Hsim.
  simpl in Hsim. inversion Hsim; subst sim z.
  split; [|now repeat split].
  rewrite Hself. unfold first_build, learning_connection.
  rewrite Hb. reflexivity.
Qed.

Lemma init_single_population_witness :
  exists self,
    init bare_host (default_args 2 50) = inr self /\
    conn_learn (sim_model (self_sim self))
    = [FromNeurons 0 1e-6 (zeros 2 50)].
Proof.
  assert (H := init_default_args bare_host 2 50 ltac:(lia) ltac:(lia)).
  eexists. split; [exact H|].
  destruct (init_single_population bare_host (default_args 2 50) _
              0.5 1.0 [] H eq_refl eq_refl eq_refl eq_refl) as (Hself & _).
  rewrite Hself. reflexivity.
Defined.

Lemma sumsq_zeros (n : nat) : sumsq (repeat 0 n) = 0.
Proof. induction n as [|n IH]; simpl; [reflexivity | rewrite IH; ring]. Qed.

Lemma gate_error_zeros (f : bool) (n : nat) :
  gate_error f (repeat 0 n) = repeat 0 n.
Proof.
  destruct f; [|reflexivity]. apply gate_error_below.
  unfold norm. rewrite sumsq_zeros, sqrt_0. lra.
Qed.

Lemma scale_zeros (c : R) (n : nat) : scale c (repeat 0 n) = repeat 0 n.
Proof.
  unfold scale. induction n as [|n IH]; simpl; [reflexivity|].
  rewrite IH. f_equal. ring.
Qed.

(** Before the first [generate]: on nengo_spinnaker the constructor has
    stored zero vectors, so every learning rule is fed zero; on the other
    backends the attributes do not exist yet and the nodes raise
    AttributeError. *)
Theorem fresh_module_nodes
    (h : host) (a : args) (self : DynamicsAdaptation)
    (scaledown : string -> vec -> vec) :
  init h a = inr self ->
  (backend a = "nengo_spinnaker" ->
   learning_rule_inputs self
   = ok (repeat (repeat 0 (N_JOINTS a)) (n_adapt_pop a)) /\
   self_q self = Some (repeat 0 (N_JOINTS a)) /\
   self_dq self = Some (repeat 0 (N_JOINTS a))) /\
  (backend a <> "nengo_spinnaker" ->
   learning_rule_inputs self
   = raise (AttributeError
       "'DynamicsAdaptation' object has no attribute 'training_signal'") /\
   qdq_input_node scaledown self
   = raise (AttributeError
       "'DynamicsAdaptation' object has no attribute 'q'")).
Proof.
  intros H. pose proof (init_model h a self H) as Hm.
  unfold for_range in Hm. apply for_each_conn_err in Hm. simpl in Hm.
  destruct (init_inv h a self H) as (sim & z & Hsim & Hself).
  apply make_simulator_inv in Hsim. destruct Hsim as (_ & Hspin & Hother).
  split; intros Hb.
  - rewrite (Hspin Hb) in Hself.
    unfold learning_rule_inputs, u_input. rewrite Hm.
    rewrite Hself at 1. simpl. split.
    + f_equal. rewrite map_map.
      rewrite (map_error_conn_signal a (repeat 0 (N_JOINTS a))).
      now rewrite gate_error_zeros, scale_zeros.
    + rewrite Hself. split; reflexivity.
  - rewrite (Hother Hb) in Hself.
    unfold learning_rule_inputs, u_input, qdq_input_node.
    rewrite Hself. split; reflexivity.
Qed.

Lemma init_spinnaker_default :
  init spinnaker_host (with_backend (default_args 2 50) "nengo_spinnaker")
  = ok {| self_N_JOINTS := 2;
          self_use_dq := false;
          self_N_INPUTS := 1;
          self_u_adapt := [0; 0];
          self_q := Some [0; 0]; self_dq := Some [0; 0];
          self_training_signal := Some [0; 0];
          self_sim :=
            SpinnakerSim
              (first_build (with_backend (default_args 2 50) "nengo_spinnaker")
                           0.5 1.0 (zeros 2 50));
          self_backend := "nengo_spinnaker" |}.
Proof.
  apply (init_one_population spinnaker_host
           (with_backend (default_args 2 50) "nengo_spinnaker") 0.5 1.0
           (zeros 2 50)); try reflexivity.
  apply (first_population_ok spinnaker_host
           (with_backend (default_args 2 50) "nengo_spinnaker") _ 0.5 1.0 ""
           (zeros 2 50));
    first [ reflexivity | simpl; lia | exact default_rate_nonneg
          | intros Hn; now elim Hn ].
Qed.

Lemma fresh_module_nodes_witness :
  (exists self,
      init bare_host (default_args 2 50) = inr self /\
      learning_rule_inputs self
      = raise (AttributeError
          "'DynamicsAdaptation' object has no attribute 'training_signal'") /\
      qdq_input_node (fun _ v => v) self
      = raise (AttributeError
          "'DynamicsAdaptation' object has no attribute 'q'")) /\
  (exists self,
      init spinnaker_host (with_backend (default_args 2 50) "nengo_spinnaker")
      = inr self /\
      learning_rule_inputs self = ok [[0; 0]] /\
      self_q self = Some [0; 0] /\
      self_dq self = Some [0; 0]).
Proof.
  assert (H := init_default_args bare_host 2 50 ltac:(lia) ltac:(lia)).
  assert (Hs := init_spinnaker_default).
  split.
  - eexists. split; [exact H|].
    destruct (fresh_module_nodes bare_host (default_args 2 50) _
                (fun _ v => v) H) as (_ & Hother).
    apply Hother. discriminate.
  - eexists. split; [exact Hs|].
    destruct (fresh_module_nodes spinnaker_host
                (with_backend (default_args 2 50) "nengo_spinnaker") _
                (fun _ v => v) Hs) as (Hspin & _).
    apply Hspin. reflexivity.
Defined.

Lemma learning_connection_as_configured (a : args) (ii : nat) (m : matrix) :
  learning_as_configured a (learning_connection a ii m).
Proof.
  unfold learning_connection, learning_as_configured.
  destruct (String.eqb (backend a) "nengo_spinnaker") eqn:E.
  - apply String.eqb_eq in E. now split.
  - apply String.eqb_neq in E. now split.
Qed.

Lemma population_ensemble_as_configured (a : args) (lo hi : R) :
  ensemble_as_configured a (population_ensemble a lo hi).
Proof. repeat split. Qed.

(** The loop invariant: each pass adds one ensemble and one connection of
    each kind, all as configured. *)
Lemma for_each_structure (h : host) (a : args) (w : list string)
      (iis : list nat) (b b' : build) :
  for_each (init_population h a w) iis b = inr b' ->
  (List.length (adapt_ens b')
   = List.length (adapt_ens b) + List.length iis)%nat /\
  (List.length (conn_in b')
   = List.length (conn_in b) + List.length iis)%nat /\
  (List.length (conn_learn b')
   = List.length (conn_learn b) + List.length iis)%nat /\
  (List.length (conn_err b')
   = List.length (conn_err b) + List.length iis)%nat /\
  (Forall (ensemble_as_configured a) (adapt_ens b) ->
   Forall (ensemble_as_configured a) (adapt_ens b')) /\
  (Forall (learning_as_configured a) (conn_learn b) ->
   Forall (learning_as_configured a) (conn_learn b')).
Proof.
  revert b. induction iis as [|ii iis IH]; intros b H; simpl in *.
  - inversion H; subst. repeat split; auto.
  - inv_bind H. apply IH in H.
    apply init_population_inv in Hx.
    destruct Hx as (lo & hi & path & ens & tr & _ & _ & _ & _ & _ & ->).
    simpl in H. rewrite !length_app in H. simpl in H.
    destruct H as (H1 & H2 & H3 & H4 & H5 & H6).
    repeat split; try lia.
    + intros Hb. apply H5. apply Forall_app. split; [exact Hb|].
      constructor; [apply population_ensemble_as_configured | constructor].
    + intros Hb. apply H6. apply Forall_app. split; [exact Hb|].
      constructor; [apply learning_connection_as_configured | constructor].
Qed.

(** Every constructed module has one ensemble, one input connection, one
    learning connection and one error connection per population; every
    ensemble has the configured size, dimension and neuron type; learning
    connections use the fixed solver exactly on nengo_spinnaker; and the
    output starts as zeros. *)
Theorem init_structure (h : host) (a : args) (self : DynamicsAdaptation) :
  init h a = inr self ->
  List.length (adapt_ens (sim_model (self_sim self))) = n_adapt_pop a /\
  List.length (conn_in (sim_model (self_sim self))) = n_adapt_pop a /\
  List.length (conn_learn (sim_model (self_sim self))) = n_adapt_pop a /\
  List.length (conn_err (sim_model (self_sim self))) = n_adapt_pop a /\
  Forall (ensemble_as_configured a) (adapt_ens (sim_model (self_sim self))) /\
  Forall (learning_as_configured a)
         (conn_learn (sim_model (self_sim self))) /\
  self_u_adapt self = repeat 0 (N_JOINTS a).
Proof.
  intros H. pose proof (init_model h a self H) as Hm.
  unfold for_range in Hm. apply for_each_structure in Hm.
  rewrite length_seq in Hm. simpl in Hm.
  destruct Hm as (H1 & H2 & H3 & H4 & H5 & H6).
  destruct (init_inv h a self H) as (sim & z & _ & Hself).
  repeat split; try assumption.
  - apply H5. constructor.
  - apply H6. constructor.
  - rewrite Hself. reflexivity.
Qed.

Lemma init_structure_witness :
  exists self,
    init bare_host (default_args 2 50) = inr self /\
    List.length (adapt_ens (sim_model (self_sim self))) = 1%nat /\
    Forall (ensemble_as_configured (default_args 2 50))
           (adapt_ens (sim_model (self_sim self))).
Proof.
  assert (H := init_default_args bare_host 2 50 ltac:(lia) ltac:(lia)).
  eexists. split; [exact H|].
  destruct (init_structure bare_host (default_args 2 50) _ H)
    as (H1 & _ & _ & _ & H5 & _).
  split; [exact H1 | exact H5].
Defined.

(** ** The control tick *)

Lemma qdq_input_length
      (scaledown : string -> vec -> vec) (use_dq : bool) (q dq : vec) :
  (forall name v, List.length (scaledown name v) = List.length v) ->
  List.length (qdq_input scaledown use_dq q dq)
  = (List.length q + (if use_dq then List.length dq else 0))%nat.
Proof.
  intros Hs. unfold qdq_input. destruct use_dq.
  - now rewrite length_app, !Hs, length_map.
  - rewrite Hs, length_map. lia.
Qed.

(** After [generate(q, dq, training_signal)] with one angle and one
    velocity per joint, and a length-preserving [scaledown], the feedback
    node returns joints x inputs values: the node's declared size and the
    dimension of every ensemble it drives. *)
Theorem feedback_matches_ensembles
    (h : host) (a : args) (self : DynamicsAdaptation)
    (scaledown : string -> vec -> vec)
    (sim_run : DynamicsAdaptation -> vec) (q dq training_signal : vec) :
  init h a = inr self ->
  (forall name v, List.length (scaledown name v) = List.length v) ->
  List.length q = N_JOINTS a ->
  List.length dq = N_JOINTS a ->
  exists out,
    qdq_input_node scaledown
      (fst (generate sim_run self q dq training_signal)) = ok out /\
    out = qdq_input scaledown (use_dq a) q dq /\
    List.length out = (N_JOINTS a * self_N_INPUTS self)%nat /\
    Forall (fun e => ens_dimensions e = List.length out)
           (adapt_ens (sim_model (self_sim self))).
Proof.
  intros H Hs Hq Hdq.
  pose proof (init_model h a self H) as Hens.
  unfold for_range in Hens. apply for_each_structure in Hens.
  destruct Hens as (_ & _ & _ & _ & Hens & _).
  specialize (Hens (Forall_nil _)).
  destruct (init_inv h a self H) as (sim & z & _ & Hself).
  assert (Hin : self_N_INPUTS self = if use_dq a then 2%nat else 1%nat)
    by (rewrite Hself; reflexivity).
  assert (Hdq' : self_use_dq self = use_dq a)
    by (rewrite Hself; reflexivity).
  exists (qdq_input scaledown (use_dq a) q dq).
  assert (Hlen : List.length (qdq_input scaledown (use_dq a) q dq)
                 = (N_JOINTS a * (if use_dq a then 2 else 1))%nat).
  { rewrite qdq_input_length by exact Hs. rewrite Hq, Hdq.
    destruct (use_dq a); lia. }
  split; [|split; [reflexivity | split]].
  - unfold qdq_input_node, generate. simpl. rewrite Hdq'.
    destruct (use_dq a); reflexivity.
  - now rewrite Hin.
  - rewrite Hlen. revert Hens. apply Forall_impl.
    intros e (_ & Hd & _). exact Hd.
Qed.

Lemma feedback_matches_ensembles_witness :
  exists self out,
    init bare_host (default_args 2 50) = inr self /\
    qdq_input_node (fun _ v => v)
      (fst (generate (fun s => self_u_adapt s) self [0; 0] [0; 0] [1; 1]))
    = ok out /\
    List.length out = 2%nat.
Proof.
  assert (H := init_default_args bare_host 2 50 ltac:(lia) ltac:(lia)).
  eexists.
  destruct (feedback_matches_ensembles bare_host (default_args 2 50) _
              (fun _ v => v) (fun s => self_u_adapt s) [0; 0] [0; 0] [1; 1]
              H (fun _ _ => eq_refl) eq_refl eq_refl)
    as (out & Hout & _ & Hlen & _).
  exists out. split; [exact H|]. split; [exact Hout | exact Hlen].
Defined.

(** ** Transposition and the fixed solver *)

Lemma nth_map_row (i j : nat) (rs : list (list R)) :
  nth i (map (fun row : list R => nth j row 0) rs) 0
  = nth j (nth i rs []) 0.
Proof.
  revert i. induction rs as [|r rs IH]; intros [|i]; simpl.
  - now destruct j.
  - now destruct j.
  - reflexivity.
  - apply IH.
Qed.

Lemma map_nth_seq (l : list R) (k : nat) (pre : list R) :
  map (fun j => nth j (pre ++ l) 0)
      (seq (List.length pre) (List.length l)) = l.
Proof.
  revert pre. induction l as [|x l IH]; intros pre; simpl; [reflexivity|].
  rewrite nth_middle. f_equal.
  replace (pre ++ x :: l) with ((pre ++ [x]) ++ l) by now rewrite <- app_assoc.
  replace (S (List.length pre)) with (List.length (pre ++ [x]))
    by (rewrite length_app; simpl; lia).
  apply IH.
Qed.

Lemma rows_from_nth (rs pre : list (list R)) (c : nat) :
  Forall (fun row => List.length row = c) rs ->
  map (fun i => map (fun j => nth j (nth i (pre ++ rs) []) 0) (seq 0 c))
      (seq (List.length pre) (List.length rs)) = rs.
Proof.
  revert pre. induction rs as [|r rs IH]; intros pre Hrs; simpl;
    [reflexivity|].
  inversion Hrs as [|r' rs' Hr Hrs']; subst.
  rewrite nth_middle. f_equal.
  - exact (map_nth_seq r 0 []).
  - replace (pre ++ r :: rs) with ((pre ++ [r]) ++ rs)
      by now rewrite <- app_assoc.
    replace (S (List.length pre)) with (List.length (pre ++ [r]))
      by (rewrite length_app; simpl; lia).
    now apply IH.
Qed.

Lemma T_involutive (m : matrix) : well_shaped m -> T (T m) = m.
Proof.
  destruct m as [r c rs]. unfold well_shaped, T. simpl.
  intros [Hlen Hrows]. f_equal.
  rewrite <- Hlen.
  rewrite <- (rows_from_nth rs [] c Hrows) at 2. simpl.
  apply map_ext. intros i. rewrite map_map.
  apply map_ext. intros j. apply nth_map_row.
Qed.

(** On nengo_spinnaker the learning connection carries a solver that
    ignores the activities and targets it is called with and returns the
    initial transform transposed; transposing its answer gives the
    initial transform back.  On the other backends there is no solver. *)
Theorem spinnaker_solver_returns_transform
    (a : args) (ii : nat) (transform A Y : matrix) :
  well_shaped transform ->
  (backend a = "nengo_spinnaker" ->
   exists s, conn_solver (learning_connection a ii transform) = Some s /\
             fst (DummySolver_call s A Y) = T transform /\
             T (fst (DummySolver_call s A Y)) = transform /\
             snd (DummySolver_call s A Y) = []) /\
  (backend a <> "nengo_spinnaker" ->
   conn_solver (learning_connection a ii transform) = None).
Proof.
  intros Hm. unfold learning_connection. split; intros Hb.
  - rewrite Hb. simpl. eexists. split; [reflexivity|]. simpl.
    split; [reflexivity|]. split; [now apply T_involutive | reflexivity].
  - now rewrite eqb_neq_false.
Qed.

Lemma zeros_well_shaped (r c : nat) : well_shaped (zeros r c).
Proof.
  unfold well_shaped, zeros. simpl. split; [apply repeat_length|].
  apply Forall_forall. intros row Hrow. apply repeat_spec in Hrow.
  subst row. apply repeat_length.
Qed.

Lemma spinnaker_solver_witness :
  exists s,
    conn_solver (learning_connection
                   (with_backend (default_args 2 50) "nengo_spinnaker")
                   0 (zeros 2 50)) = Some s /\
    fst (DummySolver_call s (zeros 1 50) (zeros 1 2)) = T (zeros 2 50) /\
    T (fst (DummySolver_call s (zeros 1 50) (zeros 1 2))) = zeros 2 50 /\
    snd (DummySolver_call s (zeros 1 50) (zeros 1 2)) = [].
Proof.
  apply (spinnaker_solver_returns_transform
           (with_backend (default_args 2 50) "nengo_spinnaker") 0
           (zeros 2 50) (zeros 1 50) (zeros 1 2) (zeros_well_shaped 2 50)).
  reflexivity.
Defined.

(** ** utils/ideal_intercepts.py *)

Import IdealIntercepts.

Lemma ceil_spec (x : R) (z : Z) : IZR z - 1 < x <= IZR z -> ceil x = z.
Proof.
  intros [H1 H2]. unfold ceil.
  rewrite <- (Int_part_spec (- x) (- z)%Z).
  - lia.
  - rewrite opp_IZR. lra.
Qed.

Lemma Int_part_IZR (z : Z) : Int_part (IZR z) = z.
Proof. symmetry. apply Int_part_spec. lra. Qed.

Lemma rint_IZR (z : Z) : rint (IZR z) = z.
Proof.
  unfold rint. rewrite Int_part_IZR.
  destruct (Rlt_dec (IZR z - IZR z) 0.5); [reflexivity | lra].
Qed.

(** Rounding to one decimal leaves a multiple of one tenth alone. *)
Lemma round1_tenth (z : Z) : round1 (tenth z) = tenth z.
Proof.
  unfold round1, tenth.
  replace (IZR z / 10 * 10) with (IZR z) by field.
  now rewrite rint_IZR.
Qed.

Lemma tenth_lt (x y : Z) : tenth x < tenth y <-> (x < y)%Z.
Proof.
  unfold tenth. split; intros H.
  - apply lt_IZR. lra.
  - apply IZR_lt in H. lra.
Qed.

Lemma tenth_le (x y : Z) : tenth x <= tenth y <-> (x <= y)%Z.
Proof.
  unfold tenth. split; intros H.
  - apply le_IZR. lra.
  - apply IZR_le in H. lra.
Qed.

Lemma in_arange (start stop step x : R) :
  In x (arange start stop step) <->
  exists i, (i < Z.to_nat (ceil ((stop - start) / step)))%nat /\
            x = start + INR i * step.
Proof.
  unfold arange. rewrite in_map_iff. split.
  - intros (i & <- & Hi). apply in_seq in Hi. exists i. split; [lia|easy].
  - intros (i & Hi & ->). exists i. split; [easy|]. apply in_seq. lia.
Qed.

(** The two grids of [generate_possible_intercepts]: nineteen bounds
    -0.9, -0.8, ..., 0.9 and ten modes -0.9, -0.7, ..., 0.9. *)
Lemma in_intercept_range (x : R) :
  In x (arange (-0.9) 1.0 0.1) <->
  exists i, (i < 19)%nat /\ x = tenth (Z.of_nat i - 9).
Proof.
  rewrite in_arange.
  replace (ceil ((1.0 - -0.9) / 0.1)) with 19%Z
    by (symmetry; apply ceil_spec; lra).
  change (Z.to_nat 19) with 19%nat.
  split; intros (i & Hi & ->); exists i; (split; [exact Hi|]);
    unfold tenth; rewrite minus_IZR, <- INR_IZR_INZ; lra.
Qed.

Lemma in_mode_range (x : R) :
  In x (arange (-0.9) 1.0 0.2) <->
  exists k, (k < 10)%nat /\ x = tenth (2 * Z.of_nat k - 9).
Proof.
  rewrite in_arange.
  replace (ceil ((1.0 - -0.9) / 0.2)) with 10%Z
    by (symmetry; apply ceil_spec; lra).
  change (Z.to_nat 10) with 10%nat.
  split; intros (k & Hk & ->); exists k; (split; [exact Hk|]);
    unfold tenth; rewrite minus_IZR, mult_IZR, <- INR_IZR_INZ; lra.
Qed.

Lemma in_meshgrid_rows (a : vec) (x y : R) :
  In (x, y) (meshgrid_rows a) <-> In x a /\ In y a.
Proof.
  unfold meshgrid_rows. rewrite in_flat_map. split.
  - intros (x' & Hx & Hin). apply in_map_iff in Hin.
    destruct Hin as (y' & Heq & Hy). inversion Heq; subst. now split.
  - intros [Hx Hy]. exists x. split; [exact Hx|].
    apply in_map_iff. now exists y.
Qed.

Lemma in_valid_modes (v0 v1 : R) (mode_range t : vec) :
  In t (valid_modes true v0 v1 mode_range) <->
  exists m, In m mode_range /\ v0 <= round1 m <= v1 /\
            t = [v0; v1; round1 m].
Proof.
  unfold valid_modes. rewrite in_flat_map. split.
  - intros (m & Hm & Hin). exists m. split; [exact Hm|].
    destruct (Rle_dec v0 (round1 m)); [|now destruct Hin].
    destruct (Rle_dec (round1 m) v1); [|now destruct Hin].
    destruct Hin as [<-|[]]. now repeat split.
  - intros (m & Hm & [H0 H1] & ->). exists m. split; [exact Hm|].
    destruct (Rle_dec v0 (round1 m)); [|lra].
    destruct (Rle_dec (round1 m) v1); [|lra].
    now left.
Qed.

Lemma in_generate_possible_intercepts (t : vec) :
  In t generate_possible_intercepts <->
  exists i j k : nat,
    (i < j)%nat /\ (j < 19)%nat /\ (k < 10)%nat /\
    (i <= 2 * k)%nat /\ (2 * k <= j)%nat /\
    t = [tenth (Z.of_nat i - 9); tenth (Z.of_nat j - 9);
         tenth (2 * Z.of_nat k - 9)].
Proof.
  unfold generate_possible_intercepts. rewrite in_flat_map. split.
  - intros ([x y] & Hxy & Hin). simpl in Hin.
    apply in_meshgrid_rows in Hxy. destruct Hxy as [Hx Hy].
    apply in_intercept_range in Hx. destruct Hx as (i & Hi & ->).
    apply in_intercept_range in Hy. destruct Hy as (j & Hj & ->).
    rewrite !round1_tenth in Hin.
    destruct (Rlt_dec (tenth (Z.of_nat i - 9)) (tenth (Z.of_nat j - 9)))
      as [Hlt|]; [|now destruct Hin].
    apply tenth_lt in Hlt.
    apply in_valid_modes in Hin. destruct Hin as (m & Hm & [H0 H1] & ->).
    apply in_mode_range in Hm. destruct Hm as (k & Hk & ->).
    rewrite round1_tenth in *.
    apply tenth_le in H0. apply tenth_le in H1.
    exists i, j, k. repeat split; try lia.
  - intros (i & j & k & Hij & Hj & Hk & Hik & Hkj & ->).
    exists (tenth (Z.of_nat i - 9), tenth (Z.of_nat j - 9)). split.
    + apply in_meshgrid_rows. split; apply in_intercept_range.
      * exists i. split; [lia | reflexivity].
      * exists j. split; [lia | reflexivity].
    + simpl. rewrite !round1_tenth.
      destruct (Rlt_dec (tenth (Z.of_nat i - 9)) (tenth (Z.of_nat j - 9)))
        as [|Hn]; [|exfalso; apply Hn; apply tenth_lt; lia].
      apply in_valid_modes. exists (tenth (2 * Z.of_nat k - 9)).
      split; [apply in_mode_range; exists k; split; [lia | reflexivity]|].
      rewrite round1_tenth. split; [|reflexivity].
      split; apply tenth_le; lia.
Qed.

(** [generate_possible_intercepts] returns exactly the triples
    [lo, hi, mode] on the tenths grid with -0.9 <= lo < hi <= 0.9 and a
    mode among -0.9, -0.7, ..., 0.9 that lies between lo and hi; so no
    returned triple has its bounds out of order, its mode outside the
    bounds, or a value outside [-0.9, 0.9]. *)
Theorem generate_possible_intercepts_grid :
  (forall t : vec,
      In t generate_possible_intercepts <->
      exists i j k : nat,
        (i < j)%nat /\ (j < 19)%nat /\ (k < 10)%nat /\
        (i <= 2 * k)%nat /\ (2 * k <= j)%nat /\
        t = [tenth (Z.of_nat i - 9); tenth (Z.of_nat j - 9);
             tenth (2 * Z.of_nat k - 9)]) /\
  Forall (fun t => exists lo hi mode,
              t = [lo; hi; mode] /\
              -0.9 <= lo /\ lo < hi /\ hi <= 0.9 /\
              lo <= mode /\ mode <= hi)
         generate_possible_intercepts.
Proof.
  split; [exact in_generate_possible_intercepts|].
  apply Forall_forall. intros t Ht.
  apply in_generate_possible_intercepts in Ht.
  destruct Ht as (i & j & k & Hij & Hj & Hk & Hik & Hkj & ->).
  do 3 eexists. split; [reflexivity|].
  assert (Hi9 : tenth (-9) <= tenth (Z.of_nat i - 9)) by (apply tenth_le; lia).
  assert (Hj9 : tenth (Z.of_nat j - 9) <= tenth 9) by (apply tenth_le; lia).
  assert (Hlt : tenth (Z.of_nat i - 9) < tenth (Z.of_nat j - 9))
    by (apply tenth_lt; lia).
  assert (Hlo : tenth (Z.of_nat i - 9) <= tenth (2 * Z.of_nat k - 9))
    by (apply tenth_le; lia).
  assert (Hhi : tenth (2 * Z.of_nat k - 9) <= tenth (Z.of_nat j - 9))
    by (apply tenth_le; lia).
  unfold tenth in *. repeat split; lra.
Qed.


Lemma linspace_length (start stop : R) (num : nat) :
  List.length (linspace start stop num) = num.
Proof. unfold linspace. now rewrite length_map, length_seq. Qed.

(** A falling [linspace] stays between its ends. *)
Lemma linspace_between (start stop : R) (num : nat) :
  stop <= start ->
  Forall (fun v => stop <= v <= start) (linspace start stop num).
Proof.
  intros Hle. unfold linspace. apply Forall_forall. intros v Hv.
  apply in_map_iff in Hv. destruct Hv as (i & <- & Hi).
  apply in_seq in Hi.
  destruct (Nat.eq_dec num 1) as [->|Hnum].
  - replace i with 0%nat by lia. simpl. lra.
  - assert (HN : 0 < INR (num - 1)) by (apply lt_0_INR; lia).
    assert (Hi' : 0 <= INR i <= INR (num - 1)).
    { split; [apply pos_INR | apply le_INR; lia]. }
    set (N := INR (num - 1)) in *. set (x := INR i) in *.
    replace (start + x * ((stop - start) / N))
      with (start + (x / N) * (stop - start)) by (field; lra).
    assert (Ht : 0 <= x / N <= 1).
    { split.
      - apply Rmult_le_pos; [lra | left; now apply Rinv_0_lt_compat].
      - apply (Rmult_le_reg_r N); [exact HN|].
        unfold Rdiv. rewrite Rmult_assoc, Rinv_l by lra. lra. }
    nra.
Qed.

Lemma line_points_bounds (n_bins : nat) :
  (1 <= n_bins)%nat ->
  (0 <= Int_part (0.6 * INR n_bins) < Z.of_nat n_bins)%Z.
Proof.
  intros Hn. destruct (base_Int_part (0.6 * INR n_bins)) as [Hle Hgt].
  assert (Hpos : 1 <= INR n_bins) by (change 1 with (INR 1); now apply le_INR).
  split.
  - assert (H : (-1 < Int_part (0.6 * INR n_bins))%Z)
      by (apply lt_IZR; lra).
    lia.
  - apply lt_IZR. rewrite <- INR_IZR_INZ. lra.
Qed.

(** [ideal_profile] with at least one bin returns one value per histogram
    bin, that is n_bins - 1 values, none below zero or above a tenth of the
    neuron count; with no bin it raises ValueError. *)
Theorem ideal_profile_shape (n_neurons n_bins : nat) :
  (n_bins = 0%nat ->
   ideal_profile n_neurons n_bins
   = inl (ValueError "negative dimensions are not allowed")) /\
  ((1 <= n_bins)%nat ->
   exists v,
     ideal_profile n_neurons n_bins = inr v /\
     List.length v = (n_bins - 1)%nat /\
     Forall (fun x => 0 <= x <= 0.1 * INR n_neurons) v).
Proof.
  unfold ideal_profile. cbn [fst snd]. split.
  - intros ->. simpl INR. rewrite Rmult_0_r.
    change 0 with (IZR 0). rewrite Int_part_IZR. reflexivity.
  - intros Hn. pose proof (line_points_bounds n_bins Hn) as [H0 H1].
    set (k := Int_part (0.6 * INR n_bins)) in *.
    destruct (Z.ltb_spec (Z.of_nat n_bins - k - 1) 0) as [Hneg|_]; [lia|].
    eexists. split; [reflexivity|]. split.
    + rewrite length_app, linspace_length, repeat_length. lia.
    + apply Forall_app. split.
      * assert (Hs : 0 * INR n_neurons <= 0.1 * INR n_neurons)
          by (pose proof (pos_INR n_neurons); lra).
        pose proof (linspace_between _ _ (Z.to_nat k) Hs) as Hl.
        revert Hl. apply Forall_impl. intros x Hx. lra.
      * apply Forall_forall. intros x Hx. apply repeat_spec in Hx. subst x.
        pose proof (pos_INR n_neurons). lra.
Qed.

Lemma ideal_profile_shape_witness :
  ideal_profile 1000 0
  = inl (ValueError "negative dimensions are not allowed") /\
  exists v,
    ideal_profile 1000 100 = inr v /\
    List.length v = 99%nat /\
    Forall (fun x => 0 <= x <= 0.1 * INR 1000) v.
Proof.
  split.
  - apply (ideal_profile_shape 1000 0). reflexivity.
  - apply (ideal_profile_shape 1000 100). lia.
Defined.
